(** * DNS-01 provider adapters: inwx, netcup, hosting.de, checkdomain

    A shallow embedding of the four adapters' [Present] and [CleanUp]
    methods.  Every adapter talks to a remote API through a client; the
    calls it makes are the events of a small program monad, and the remote
    side is the handler that answers them.  Properties that hold whatever
    the provider answers are stated for every handler; properties of the
    zone itself are stated against the reference servers of the second
    half of the file. *)

From stdpp Require Import base strings gmap list.
From Stdlib Require Import ZArith Lia.

Set Default Proof Using "Type".
Local Open Scope Z_scope.

(** ** Go values *)

(** A Go [error] value.  [ErrorResponse] is [*goinwx.ErrorResponse] (the
    only concrete error type the adapters inspect), [ErrorString] any other
    error, and [Errorf prefix e] is [fmt.Errorf(prefix + "%w", e)]. *)
Inductive error : Type :=
| ErrorResponse (Code : Z) (Message : string)
| ErrorString (s : string)
| Errorf (prefix : string) (cause : error).

#[global] Instance error_eq_dec : EqDecision error.
Proof. solve_decision. Defined.

(** A Go [(T, error)] result whose value is only read when the error is nil. *)
Inductive res (A : Type) : Type :=
| Ok (a : A)
| Err (e : error).
Arguments Ok {A} a.
Arguments Err {A} e.

(** The errors an error wraps, itself included ([errors.Unwrap] chain). *)
Fixpoint chain (e : error) : list error :=
  match e with
  | Errorf _ c => e :: chain c
  | _ => [e]
  end.

(** [dns01.UnFqdn] of the lego library: drops one trailing dot. *)
Fixpoint UnFqdn (name : string) : string :=
  match name with
  | EmptyString => EmptyString
  | String c EmptyString => if Ascii.eqb c (Ascii.ascii_of_nat 46) then EmptyString else name
  | String c rest => String c (UnFqdn rest)
  end.

Definition dquote : string := String (Ascii.ascii_of_nat 34) EmptyString.

(** [fmt.Sprintf(`"%s"`, value)], also written [`"` + value + `"`]. *)
Definition quoted (value : string) : string := dquote +:+ value +:+ dquote.

Fixpoint strip_prefix (p s : string) : option string :=
  match p, s with
  | EmptyString, _ => Some s
  | String a p', String b s' => if Ascii.eqb a b then strip_prefix p' s' else None
  | String _ _, EmptyString => None
  end.

(** [strings.Replace(s, old, new, 1)]. *)
Fixpoint replace_first (s old new : string) : string :=
  match strip_prefix old s with
  | Some rest => new +:+ rest
  | None =>
      match s with
      | EmptyString => EmptyString
      | String c s' => String c (replace_first s' old new)
      end
  end.

(** ** Programs over a client API *)

Section Prog.
Context {E : Type -> Type}.

(** A method body: it returns, or calls the API and continues with the
    answer. *)
Inductive prog (R : Type) : Type :=
| Ret (r : R)
| Vis (X : Type) (e : E X) (k : X -> prog R).
Arguments Ret {R} r.
Arguments Vis {R X} e k.

Fixpoint bind {A B : Type} (p : prog A) (f : A -> prog B) : prog B :=
  match p with
  | Ret a => f a
  | Vis e k => Vis e (fun x => bind (k x) f)
  end.

Definition call {X : Type} (e : E X) : prog X := Vis e Ret.

(** One API call together with the answer it got. *)
Inductive event : Type :=
| Event (X : Type) (e : E X) (x : X).

Section Run.
Context {W : Type} (h : forall X, E X -> W -> X * W).

(** Running a body against a provider [h] in state [w]: the returned
    value, the provider's final state and the calls made, in order. *)
Fixpoint run {R : Type} (p : prog R) (w : W) : R * W * list event :=
  match p with
  | Ret r => (r, w, [])
  | Vis e k =>
      let '(x, w1) := h _ e w in
      let '(r, w2, t) := run (k x) w1 in
      (r, w2, Event _ e x :: t)
  end.
End Run.
End Prog.

Arguments prog E R : clear implicits.
Arguments event E : clear implicits.
Arguments Ret {E R} r.
Arguments Vis {E R X} e k.
Arguments Event {E X} e x.

Notation "'let*' x := p 'in' q" := (bind p (fun x => q))
  (at level 10, x name, p at level 100, q at level 200, only parsing).

(** The three components of a run. *)
Definition result {R W Ev : Type} (o : R * W * list Ev) : R :=
  let '(r, _, _) := o in r.
Definition final {R W Ev : Type} (o : R * W * list Ev) : W :=
  let '(_, w, _) := o in w.
Definition trace {R W Ev : Type} (o : R * W * list Ev) : list Ev :=
  let '(_, _, t) := o in t.
Arguments result {R W Ev} !o /.
Arguments final {R W Ev} !o /.
Arguments trace {R W Ev} !o /.

(** What a Go function call leaves behind: it returned an error value, or
    it panicked (an index out of range). *)
Inductive outcome : Type :=
| Returned (err : option error)
| Panicked.

#[global] Instance outcome_eq_dec : EqDecision outcome.
Proof. solve_decision. Defined.

(** [records[idx]] for a Go [int] index: [None] is the run-time panic. *)
Definition index {A : Type} (l : list A) (idx : Z) : option A :=
  if bool_decide (0 <= idx) then l !! Z.to_nat idx else None.

(** The error starts with the adapter's name: it is an [errors.New] or a
    [fmt.Errorf] of the adapter, whose text begins with [adapter]. *)
Definition named (adapter : string) (e : error) : bool :=
  match e with
  | ErrorResponse _ _ => false
  | ErrorString s => String.prefix adapter s
  | Errorf prefix _ => String.prefix adapter prefix
  end.

(** The string holds no dot. *)
Fixpoint dotless (s : string) : bool :=
  match s with
  | EmptyString => true
  | String c rest => negb (Ascii.eqb c (Ascii.ascii_of_nat 46)) && dotless rest
  end.

(** ** inwx *)

Module Inwx.

Record Config : Type := {
  Username : string;
  Password : string;
  Sandbox : bool;
  TTL : Z
}.

(** [goinwx.NameserverRecordRequest], the fields the adapter sets. *)
Record NameserverRecordRequest : Type := {
  req_Domain : string;
  req_Name : string;
  req_Type : string;
  req_Content : string;
  req_TTL : Z
}.

(** [goinwx.NameserverInfoRequest], the fields the adapter sets. *)
Record NameserverInfoRequest : Type := {
  info_Domain : string;
  info_Name : string;
  info_Type : string
}.

(** [goinwx.NameserverRecord]. *)
Record NameserverRecord : Type := {
  ID : Z;
  Name : string;
  Type_ : string;
  Content : string;
  rec_TTL : Z
}.

#[global] Instance NameserverRecord_eq_dec : EqDecision NameserverRecord.
Proof. solve_decision. Defined.

(** The calls of [dns01] and of [d.client] the adapter makes. *)
Inductive api : Type -> Type :=
| FindZoneByFqdn (fqdn : string) : api (res string)
| Login : api (option error)
| Logout : api (option error)
| CreateRecord (request : NameserverRecordRequest) : api (res Z)
| Info (request : NameserverInfoRequest) : api (res (list NameserverRecord))
| DeleteRecord (recID : Z) : api (option error).

(** [defer func() { errL := d.client.Account.Logout(); ... }()]: the
    logout runs when the body is left; its error is only logged. *)
Definition defer_Logout {R : Type} (body : prog api R) : prog api R :=
  let* r := body in
  let* errL := call Logout in
  Ret r.

Definition Present (d : Config) (domain token fqdn value : string)
  : prog api (option error) :=
  let* z := call (FindZoneByFqdn fqdn) in
  match z with
  | Err err => Ret (Some (Errorf "inwx: " err))
  | Ok authZone =>
      let* errLogin := call Login in
      match errLogin with
      | Some err => Ret (Some (Errorf "inwx: " err))
      | None =>
          defer_Logout
            (let request :=
               {| req_Domain := UnFqdn authZone;
                  req_Name := UnFqdn fqdn;
                  req_Type := "TXT";
                  req_Content := value;
                  req_TTL := TTL d |} in
             let* r := call (CreateRecord request) in
             match r with
             | Err err =>
                 match err with
                 | ErrorResponse _ Message =>
                     if bool_decide (Message = "Object exists")
                     then Ret None
                     else Ret (Some (Errorf "inwx: " err))
                 | _ => Ret (Some (Errorf "inwx: " err))
                 end
             | Ok _ => Ret None
             end)
      end
  end.

(** The [for _, record := range response.Records] loop of [CleanUp]. *)
Fixpoint delete_records (records : list NameserverRecord)
    (lastErr : option error) : prog api (option error) :=
  match records with
  | [] => Ret lastErr
  | record :: rest =>
      let* err := call (DeleteRecord (ID record)) in
      match err with
      | Some e => delete_records rest (Some (Errorf "inwx: " e))
      | None => delete_records rest lastErr
      end
  end.

Definition CleanUp (d : Config) (domain token fqdn value : string)
  : prog api (option error) :=
  let* z := call (FindZoneByFqdn fqdn) in
  match z with
  | Err err => Ret (Some (Errorf "inwx: " err))
  | Ok authZone =>
      let* errLogin := call Login in
      match errLogin with
      | Some err => Ret (Some (Errorf "inwx: " err))
      | None =>
          defer_Logout
            (let* response := call (Info {| info_Domain := UnFqdn authZone;
                                       info_Name := UnFqdn fqdn;
                                       info_Type := "TXT" |}) in
             match response with
             | Err err => Ret (Some (Errorf "inwx: " err))
             | Ok records => delete_records records None
             end)
      end
  end.

(** *** Reading a trace *)

Definition is_Logout (ev : event api) : bool :=
  match ev with
  | Event e _ => match e with Logout => true | _ => false end
  end.

Definition Login_ok (ev : event api) : bool :=
  match ev with
  | Event e x =>
      match e in api X return X -> bool with
      | Login => fun errL => bool_decide (errL = None)
      | _ => fun _ => false
      end x
  end.

(** The requests [CreateRecord] was called with, and the answers. *)
Definition creation (ev : event api)
  : option (NameserverRecordRequest * res Z) :=
  match ev with
  | Event e x =>
      match e in api X return X -> option (NameserverRecordRequest * res Z) with
      | CreateRecord request => fun r => Some (request, r)
      | _ => fun _ => None
      end x
  end.

Definition creations (t : list (event api))
  : list (NameserverRecordRequest * res Z) :=
  omap creation t.

(** The requests [Info] was called with, and the answers. *)
Definition listing (ev : event api)
  : option (NameserverInfoRequest * res (list NameserverRecord)) :=
  match ev with
  | Event e x =>
      match e in api X
            return X -> option (NameserverInfoRequest * res (list NameserverRecord)) with
      | Info request => fun r => Some (request, r)
      | _ => fun _ => None
      end x
  end.

Definition listings (t : list (event api))
  : list (NameserverInfoRequest * res (list NameserverRecord)) :=
  omap listing t.

(** The record ids [DeleteRecord] was called with, and the answers. *)
Definition deletion (ev : event api) : option (Z * option error) :=
  match ev with
  | Event e x =>
      match e in api X return X -> option (Z * option error) with
      | DeleteRecord recID => fun err => Some (recID, err)
      | _ => fun _ => None
      end x
  end.

Definition deletions (t : list (event api)) : list (Z * option error) :=
  omap deletion t.

(** The value of [lastErr] after the given deletion answers. *)
Fixpoint last_failure (answers : list (Z * option error))
    (lastErr : option error) : option error :=
  match answers with
  | [] => lastErr
  | (_, Some e) :: rest => last_failure rest (Some (Errorf "inwx: " e))
  | (_, None) :: rest => last_failure rest lastErr
  end.

(** The errors the deletion calls answered with. *)
Definition failures (answers : list (Z * option error)) : list error :=
  omap snd answers.

(** *** Construction *)

(** [goinwx.ClientOptions] and the client [goinwx.NewClient] returns for
    its arguments. *)
Record ClientOptions : Type := {
  opt_Sandbox : bool
}.

Inductive Client : Type :=
| NewClient (username password : string) (opts : ClientOptions).

Record DNSProvider : Type := {
  config : Config;
  client : Client
}.

(** [NewDNSProviderConfig]; [None] is the nil configuration. *)
Definition NewDNSProviderConfig (config : option Config) : res DNSProvider :=
  match config with
  | None => Err (ErrorString "inwx: the configuration of the DNS provider is nil")
  | Some config =>
      if bool_decide (Username config = EmptyString)
         || bool_decide (Password config = EmptyString)
      then Err (ErrorString "inwx: credentials missing")
      else
        let client := NewClient (Username config) (Password config)
                        {| opt_Sandbox := Sandbox config |} in
        Ok {| config := config; client := client |}
  end.

End Inwx.

(** ** netcup *)

Module Netcup.

Record Config : Type := {
  Key : string;
  Password : string;
  Customer : string;
  TTL : Z
}.

(** [internal.DNSRecord]: the fields the adapter reads or writes, and the
    id the API gives a stored record (0, Go's zero value, on a record the
    adapter builds). *)
Record DNSRecord : Type := {
  ID : Z;
  Hostname : string;
  RecordType : string;
  Destination : string;
  DeleteRecord : bool;
  rec_TTL : Z
}.

#[global] Instance DNSRecord_eq_dec : EqDecision DNSRecord.
Proof. solve_decision. Defined.

(** The calls of [dns01] and of [d.client] the adapter makes.
    [GetDNSRecords] answers with both its values, because [Present] goes
    on to use the records when the error is not nil. *)
Inductive api : Type -> Type :=
| FindZoneByFqdn (fqdn : string) : api (res string)
| Login : api (res string)
| Logout (sessionID : string) : api (option error)
| GetDNSRecords (hostname apiSessionID : string)
    : api (list DNSRecord * option error)
| UpdateDNSRecord (sessionID domainName : string) (records : list DNSRecord)
    : api (option error).

(** [defer func() { err = d.client.Logout(sessionID); ... }()].  The
    result of the method was evaluated by [return] before the deferred
    call assigns the local [err], so it is not changed. *)
Definition defer_Logout {R : Type} (sessionID : string) (body : prog api R)
  : prog api R :=
  let* r := body in
  let* err := call (Logout sessionID) in
  Ret r.

Definition Present (d : Config) (domainName token fqdn value : string)
  : prog api (option error) :=
  let* z := call (FindZoneByFqdn fqdn) in
  match z with
  | Err err => Ret (Some (Errorf "netcup: failed to find DNSZone, " err))
  | Ok zone =>
      let* s := call Login in
      match s with
      | Err err => Ret (Some (Errorf "netcup: " err))
      | Ok sessionID =>
          defer_Logout sessionID
            (let hostname := replace_first fqdn ("." +:+ zone) EmptyString in
             let record :=
               {| ID := 0;
                  Hostname := hostname;
                  RecordType := "TXT";
                  Destination := value;
                  DeleteRecord := false;
                  rec_TTL := TTL d |} in
             let zone := UnFqdn zone in
             let* fetched := call (GetDNSRecords zone sessionID) in
             (* a fetch error is logged and otherwise ignored *)
             let records := fetched.1 ++ [record] in
             let* err := call (UpdateDNSRecord sessionID zone records) in
             match err with
             | Some err =>
                 Ret (Some (Errorf "netcup: failed to add TXT-Record: " err))
             | None => Ret None
             end)
      end
  end.

Definition mark_deleted (r : DNSRecord) : DNSRecord :=
  {| ID := ID r;
     Hostname := Hostname r;
     RecordType := RecordType r;
     Destination := Destination r;
     DeleteRecord := true;
     rec_TTL := rec_TTL r |}.

Section CleanUp.
(** [internal.GetDNSRecordIdx], a helper of the client package. *)
Variable GetDNSRecordIdx : list DNSRecord -> DNSRecord -> Z * option error.

Definition CleanUp (d : Config) (domainName token fqdn value : string)
  : prog api outcome :=
  let* z := call (FindZoneByFqdn fqdn) in
  match z with
  | Err err =>
      Ret (Returned (Some (Errorf "netcup: failed to find DNSZone, " err)))
  | Ok zone =>
      let* s := call Login in
      match s with
      | Err err => Ret (Returned (Some (Errorf "netcup: " err)))
      | Ok sessionID =>
          defer_Logout sessionID
            (let hostname := replace_first fqdn ("." +:+ zone) EmptyString in
             let zone := UnFqdn zone in
             let* fetched := call (GetDNSRecords zone sessionID) in
             match fetched.2 with
             | Some err => Ret (Returned (Some (Errorf "netcup: " err)))
             | None =>
                 let records := fetched.1 in
                 let record :=
                   {| ID := 0;
                      Hostname := hostname;
                      RecordType := "TXT";
                      Destination := value;
                      DeleteRecord := false;
                      rec_TTL := 0 |} in
                 match GetDNSRecordIdx records record with
                 | (_, Some err) =>
                     Ret (Returned (Some (Errorf "netcup: " err)))
                 | (idx, None) =>
                     match index records idx with
                     | None => Ret Panicked
                     | Some found =>
                         let* err := call (UpdateDNSRecord sessionID zone
                                             [mark_deleted found]) in
                         match err with
                         | Some err =>
                             Ret (Returned (Some (Errorf "netcup: " err)))
                         | None => Ret (Returned None)
                         end
                     end
                 end
             end)
      end
  end.
End CleanUp.

(** The record [CleanUp] looks for, once the zone is known. *)
Definition probe (fqdn zone value : string) : DNSRecord :=
  {| ID := 0;
     Hostname := replace_first fqdn ("." +:+ zone) EmptyString;
     RecordType := "TXT";
     Destination := value;
     DeleteRecord := false;
     rec_TTL := 0 |}.

(** Modelled from the spec: [internal.GetDNSRecordIdx] is not among the
    sources.  The cleanup of a zone-diff adapter matches "by value equality
    only", ignoring any id: the helper compares a record's destination and
    type with the probe's, and neither its id nor its hostname.  It answers
    the index of the first such record, and -1 with an error when there is
    none. *)
Fixpoint GetDNSRecordIdx_from (i : Z) (records : list DNSRecord)
    (record : DNSRecord) : Z * option error :=
  match records with
  | [] => (-1, Some (ErrorString "no DNS Record found"))
  | element :: rest =>
      if bool_decide (Destination element = Destination record)
         && bool_decide (RecordType element = RecordType record)
      then (i, None)
      else GetDNSRecordIdx_from (i + 1) rest record
  end.

Definition GetDNSRecordIdx := GetDNSRecordIdx_from 0.

(** *** Reading a trace *)

Definition is_Logout (ev : event api) : bool :=
  match ev with
  | Event e _ => match e with Logout _ => true | _ => false end
  end.

Definition Login_ok (ev : event api) : bool :=
  match ev with
  | Event e x =>
      match e in api X return X -> bool with
      | Login => fun s => match s with Ok _ => true | Err _ => false end
      | _ => fun _ => false
      end x
  end.

(** The record lists [UpdateDNSRecord] was called with. *)
Definition submission (ev : event api) : option (list DNSRecord) :=
  match ev with
  | Event e _ =>
      match e with
      | UpdateDNSRecord _ _ records => Some records
      | _ => None
      end
  end.

Definition submissions (t : list (event api)) : list (list DNSRecord) :=
  omap submission t.

(** The answers of [GetDNSRecords]. *)
Definition fetch (ev : event api) : option (list DNSRecord * option error) :=
  match ev with
  | Event e x =>
      match e in api X return X -> option (list DNSRecord * option error) with
      | GetDNSRecords _ _ => fun fetched => Some fetched
      | _ => fun _ => None
      end x
  end.

Definition fetches (t : list (event api))
  : list (list DNSRecord * option error) :=
  omap fetch t.

(** The answers of [dns01.FindZoneByFqdn]. *)
Definition resolution (ev : event api) : option (res string) :=
  match ev with
  | Event e x =>
      match e in api X return X -> option (res string) with
      | FindZoneByFqdn _ => fun z => Some z
      | _ => fun _ => None
      end x
  end.

Definition resolutions (t : list (event api)) : list (res string) :=
  omap resolution t.

(** The answers of [UpdateDNSRecord]. *)
Definition update_answer (ev : event api) : option (option error) :=
  match ev with
  | Event e x =>
      match e in api X return X -> option (option error) with
      | UpdateDNSRecord _ _ _ => fun err => Some err
      | _ => fun _ => None
      end x
  end.

Definition update_answers (t : list (event api)) : list (option error) :=
  omap update_answer t.

End Netcup.

(** ** hosting.de *)

Module Hostingde.

Record Config : Type := {
  APIKey : string;
  ZoneName : string;
  TTL : Z
}.

Record DNSRecord : Type := {
  ID : string;
  Name : string;
  Type_ : string;
  Content : string;
  rec_TTL : Z
}.

#[global] Instance DNSRecord_eq_dec : EqDecision DNSRecord.
Proof. solve_decision. Defined.

Record Filter : Type := {
  Field : string;
  Value : string
}.

Record ZoneConfigsFindRequest : Type := {
  find_AuthToken : string;
  find_Filter : Filter;
  Limit : Z;
  Page : Z
}.

(** [ZoneConfig]: the adapter writes [Name] and passes the rest on, here
    the id. *)
Record ZoneConfig : Type := {
  zone_ID : string;
  zone_Name : string
}.

Record ZoneUpdateRequest : Type := {
  AuthToken : string;
  req_ZoneConfig : ZoneConfig;
  RecordsToAdd : list DNSRecord;
  RecordsToDelete : list DNSRecord
}.

Record Zone : Type := {
  resp_ZoneConfig : ZoneConfig;
  Records : list DNSRecord
}.

Record ZoneUpdateResponse : Type := {
  Response : Zone
}.

(** The two requests of the adapter's client ([d.getZone], [d.updateZone]). *)
Inductive api : Type -> Type :=
| getZone (findRequest : ZoneConfigsFindRequest) : api (res ZoneConfig)
| updateZone (updateRequest : ZoneUpdateRequest) : api (res ZoneUpdateResponse).

Definition zonesFind (d : Config) : ZoneConfigsFindRequest :=
  {| find_AuthToken := APIKey d;
     find_Filter := {| Field := "zoneName"; Value := ZoneName d |};
     Limit := 1;
     Page := 1 |}.

Definition set_Name (zoneConfig : ZoneConfig) (name : string) : ZoneConfig :=
  {| zone_ID := zone_ID zoneConfig; zone_Name := name |}.

(** The test of the [for _, record := range resp.Response.Records] loop. *)
Definition confirms (fqdn value : string) (record : DNSRecord) : bool :=
  bool_decide (Name record = UnFqdn fqdn)
  && bool_decide (Content record = quoted value).

(** The loop itself: every confirming record overwrites [recordIDs[fqdn]]. *)
Fixpoint store_ids (records : list DNSRecord) (fqdn value : string)
    (recordIDs : gmap string string) : gmap string string :=
  match records with
  | [] => recordIDs
  | record :: rest =>
      store_ids rest fqdn value
        (if confirms fqdn value record
         then <[fqdn := ID record]> recordIDs
         else recordIDs)
  end.

(** [d.recordIDs[fqdn]]: the empty string for a missing key. *)
Definition get (recordIDs : gmap string string) (fqdn : string) : string :=
  default EmptyString (recordIDs !! fqdn).

Definition Present (d : Config) (recordIDs : gmap string string)
    (domain token fqdn value : string)
  : prog api (option error * gmap string string) :=
  let* z := call (getZone (zonesFind d)) in
  match z with
  | Err err => Ret (Some (Errorf "hostingde: " err), recordIDs)
  | Ok zoneConfig =>
      let zoneConfig := set_Name zoneConfig (ZoneName d) in
      let rec := [ {| ID := EmptyString;
                      Name := UnFqdn fqdn;
                      Type_ := "TXT";
                      Content := value;
                      rec_TTL := TTL d |} ] in
      let req := {| AuthToken := APIKey d;
                    req_ZoneConfig := zoneConfig;
                    RecordsToAdd := rec;
                    RecordsToDelete := [] |} in
      let* r := call (updateZone req) in
      match r with
      | Err err => Ret (Some (Errorf "hostingde: " err), recordIDs)
      | Ok resp =>
          let recordIDs := store_ids (Records (Response resp)) fqdn value recordIDs in
          if bool_decide (get recordIDs fqdn = EmptyString)
          then Ret (Some (ErrorString
                 ("hostingde: error getting ID of just created record, for domain "
                  +:+ domain)), recordIDs)
          else Ret (None, recordIDs)
      end
  end.

Definition CleanUp (d : Config) (recordIDs : gmap string string)
    (domain token fqdn value : string)
  : prog api (option error * gmap string string) :=
  let rec := [ {| ID := EmptyString;
                  Name := UnFqdn fqdn;
                  Type_ := "TXT";
                  Content := quoted value;
                  rec_TTL := 0 |} ] in
  let* z := call (getZone (zonesFind d)) in
  match z with
  | Err err => Ret (Some (Errorf "hostingde: " err), recordIDs)
  | Ok zoneConfig =>
      let zoneConfig := set_Name zoneConfig (ZoneName d) in
      let req := {| AuthToken := APIKey d;
                    req_ZoneConfig := zoneConfig;
                    RecordsToAdd := [];
                    RecordsToDelete := rec |} in
      (* Delete record ID from map *)
      let recordIDs := delete fqdn recordIDs in
      let* r := call (updateZone req) in
      match r with
      | Err err => Ret (Some (Errorf "hostingde: " err), recordIDs)
      | Ok _ => Ret (None, recordIDs)
      end
  end.

(** *** Reading a trace *)

(** The requests [updateZone] was called with. *)
Definition submission (ev : event api) : option ZoneUpdateRequest :=
  match ev with
  | Event e _ =>
      match e with
      | updateZone updateRequest => Some updateRequest
      | _ => None
      end
  end.

Definition submissions (t : list (event api)) : list ZoneUpdateRequest :=
  omap submission t.

(** The answers of [updateZone]. *)
Definition update (ev : event api) : option (res ZoneUpdateResponse) :=
  match ev with
  | Event e x =>
      match e in api X return X -> option (res ZoneUpdateResponse) with
      | updateZone _ => fun r => Some r
      | _ => fun _ => None
      end x
  end.

Definition updates (t : list (event api)) : list (res ZoneUpdateResponse) :=
  omap update t.

(** The answers of [getZone]. *)
Definition fetch (ev : event api) : option (res ZoneConfig) :=
  match ev with
  | Event e x =>
      match e in api X return X -> option (res ZoneConfig) with
      | getZone _ => fun r => Some r
      | _ => fun _ => None
      end x
  end.

Definition fetches (t : list (event api)) : list (res ZoneConfig) :=
  omap fetch t.

(** The requests [getZone] was called with. *)
Definition zone_request (ev : event api) : option ZoneConfigsFindRequest :=
  match ev with
  | Event e _ =>
      match e with
      | getZone findRequest => Some findRequest
      | _ => None
      end
  end.

Definition zone_requests (t : list (event api)) : list ZoneConfigsFindRequest :=
  omap zone_request t.

(** The last record of a response that passes the test of the loop. *)
Definition last_confirming (fqdn value : string) (records : list DNSRecord)
  : option DNSRecord :=
  last (List.filter (confirms fqdn value) records).

(** *** Construction *)

Record DNSProvider : Type := {
  config : Config;
  recordIDs : gmap string string
}.

(** [NewDNSProviderConfig]; [None] is the nil configuration. *)
Definition NewDNSProviderConfig (config : option Config) : res DNSProvider :=
  match config with
  | None => Err (ErrorString "hostingde: the configuration of the DNS provider is nil")
  | Some config =>
      if bool_decide (APIKey config = EmptyString)
      then Err (ErrorString "hostingde: API key missing")
      else if bool_decide (ZoneName config = EmptyString)
      then Err (ErrorString "hostingde: Zone Name missing")
      else Ok {| config := config; recordIDs := ∅ |}
  end.

End Hostingde.

(** ** checkdomain *)

Module Checkdomain.

Record Config : Type := {
  Token : string;
  TTL : Z
}.

Record Record_ : Type := {
  Name : string;
  rec_TTL : Z;
  Type_ : string;
  Value : string
}.

Section Adapter.
(** The state of the remote API. *)
Context {W : Type}.

Record DNSProvider : Type := {
  config : Config;
  domainIDMapping : gmap string Z;
  remote : W
}.

(** The methods of the adapter that live in its client file.  They are
    methods of [*DNSProvider]: each may call the API and may read or
    write the provider's fields. *)
Record methods : Type := {
  getDomainIDByName : string -> DNSProvider -> res Z * DNSProvider;
  checkNameservers : Z -> DNSProvider -> option error * DNSProvider;
  createRecord : Z -> Record_ -> DNSProvider -> option error * DNSProvider;
  deleteTXTRecord : Z -> string -> string -> DNSProvider -> option error * DNSProvider
}.

Variable m : methods.

Definition Present (domain token fqdn value : string) (d : DNSProvider)
  : option error * DNSProvider :=
  match getDomainIDByName m domain d with
  | (Err err, d) => (Some (Errorf "checkdomain: " err), d)
  | (Ok domainID, d) =>
      match checkNameservers m domainID d with
      | (Some err, d) => (Some (Errorf "checkdomain: " err), d)
      | (None, d) =>
          match createRecord m domainID
                  {| Name := fqdn;
                     rec_TTL := TTL (config d);
                     Type_ := "TXT";
                     Value := value |} d with
          | (Some err, d) => (Some (Errorf "checkdomain: " err), d)
          | (None, d) => (None, d)
          end
      end
  end.

Definition CleanUp (domain token fqdn value : string) (d : DNSProvider)
  : option error * DNSProvider :=
  match getDomainIDByName m domain d with
  | (Err err, d) => (Some (Errorf "checkdomain: " err), d)
  | (Ok domainID, d) =>
      match checkNameservers m domainID d with
      | (Some err, d) => (Some (Errorf "checkdomain: " err), d)
      | (None, d) =>
          match deleteTXTRecord m domainID fqdn value d with
          | (Some err, d) => (Some (Errorf "checkdomain: " err), d)
          | (None, d) =>
              (None, {| config := config d;
                        domainIDMapping := delete fqdn (domainIDMapping d);
                        remote := remote d |})
          end
      end
  end.
End Adapter.

Arguments DNSProvider W : clear implicits.
Arguments methods W : clear implicits.

End Checkdomain.

(** ** Reference servers

    The remote side of each API, as far as the adapters use it: a zone is
    a list of stored records, a stored record has an id, and a request is
    carried out literally. *)

Module RefInwx.
Import Inwx.

Record server : Type := {
  authZone : string;
  zone : list NameserverRecord;
  nextID : Z;
  (** ids whose deletion the server refuses *)
  locked : list Z;
  (** the error every [CreateRecord] is refused with, if any *)
  createError : option error
}.

(** A stored record holds what the create request asks for. *)
Definition holds (request : NameserverRecordRequest) (r : NameserverRecord) : bool :=
  bool_decide (Name r = req_Name request)
  && bool_decide (Type_ r = req_Type request)
  && bool_decide (Content r = req_Content request).

Definition listed (request : NameserverInfoRequest) (r : NameserverRecord) : bool :=
  bool_decide (Name r = info_Name request)
  && bool_decide (Type_ r = info_Type request).

Definition set_zone (s : server) (z : list NameserverRecord) (n : Z) : server :=
  {| authZone := authZone s; zone := z; nextID := n;
     locked := locked s; createError := createError s |}.

(** The server refuses a record it already holds with "Object exists",
    the answer the adapter's [Present] looks for. *)
Definition handle (X : Type) (e : api X) : server -> X * server :=
  match e in api X return server -> X * server with
  | FindZoneByFqdn _ => fun s => (Ok (authZone s), s)
  | Login => fun s => (None, s)
  | Logout => fun s => (None, s)
  | CreateRecord request => fun s =>
      match createError s with
      | Some err => (Err err, s)
      | None =>
          if existsb (holds request) (zone s)
          then (Err (ErrorResponse 2302 "Object exists"), s)
          else (Ok (nextID s),
                set_zone s
                  (zone s ++ [ {| ID := nextID s;
                                  Name := req_Name request;
                                  Type_ := req_Type request;
                                  Content := req_Content request;
                                  rec_TTL := req_TTL request |} ])
                  (nextID s + 1))
      end
  | Info request => fun s => (Ok (List.filter (listed request) (zone s)), s)
  | DeleteRecord recID => fun s =>
      if bool_decide (recID ∈ locked s)
      then (Some (ErrorResponse recID "Record is locked"), s)
      else (None,
            set_zone s
              (List.filter (fun r => negb (bool_decide (ID r = recID))) (zone s))
              (nextID s))
  end.

(** The create request of [Present], and the record it leaves. *)
Definition challenge (d : Config) (s : server) (fqdn value : string)
  : NameserverRecordRequest :=
  {| req_Domain := UnFqdn (authZone s); req_Name := UnFqdn fqdn;
     req_Type := "TXT"; req_Content := value; req_TTL := TTL d |}.

Definition created (d : Config) (s : server) (fqdn value : string)
  : NameserverRecord :=
  {| ID := nextID s; Name := UnFqdn fqdn; Type_ := "TXT";
     Content := value; rec_TTL := TTL d |}.

(** The TXT records of a zone with the given name and value. *)
Definition matching (name value : string) (z : list NameserverRecord)
  : list NameserverRecord :=
  List.filter (fun r => bool_decide (Name r = name)
                        && bool_decide (Type_ r = "TXT")
                        && bool_decide (Content r = value)) z.

(** Stored ids are below the next id to hand out. *)
Definition wf (s : server) : Prop :=
  Forall (fun r => ID r < nextID s) (zone s).

End RefInwx.

Module RefNetcup.
Import Netcup.

Record server : Type := {
  authZone : string;
  zone : list DNSRecord;
  nextID : Z;
  (** the error [GetDNSRecords] answers with, if any *)
  fetchError : option error;
  (** the error [UpdateDNSRecord] answers with, if any *)
  updateError : option error
}.

Definition with_ID (r : DNSRecord) (n : Z) : DNSRecord :=
  {| ID := n;
     Hostname := Hostname r;
     RecordType := RecordType r;
     Destination := Destination r;
     DeleteRecord := false;
     rec_TTL := rec_TTL r |}.

(** One record of an update: delete it, create it (no id yet), or
    replace the stored record with its id. *)
Definition upsert (st : list DNSRecord * Z) (r : DNSRecord) : list DNSRecord * Z :=
  if DeleteRecord r
  then (List.filter (fun r0 => negb (bool_decide (ID r0 = ID r))) st.1, st.2)
  else if bool_decide (ID r = 0)
       then (st.1 ++ [with_ID r st.2], st.2 + 1)
       else (map (fun r0 => if bool_decide (ID r0 = ID r) then r else r0) st.1, st.2).

Definition set_zone (s : server) (st : list DNSRecord * Z) : server :=
  {| authZone := authZone s; zone := st.1; nextID := st.2;
     fetchError := fetchError s; updateError := updateError s |}.

Definition handle (X : Type) (e : api X) : server -> X * server :=
  match e in api X return server -> X * server with
  | FindZoneByFqdn _ => fun s => (Ok (authZone s), s)
  | Login => fun s => (Ok "session", s)
  | Logout _ => fun s => (None, s)
  | GetDNSRecords _ _ => fun s =>
      match fetchError s with
      | Some err => (([], Some err), s)
      | None => ((zone s, None), s)
      end
  | UpdateDNSRecord _ _ records => fun s =>
      match updateError s with
      | Some err => (Some err, s)
      | None => (None, set_zone s (foldl upsert (zone s, nextID s) records))
      end
  end.

(** The record [Present] builds for a challenge. *)
Definition challenge (d : Config) (s : server) (fqdn value : string) : DNSRecord :=
  {| ID := 0;
     Hostname := replace_first fqdn ("." +:+ authZone s) EmptyString;
     RecordType := "TXT";
     Destination := value;
     DeleteRecord := false;
     rec_TTL := TTL d |}.

(** The TXT records of a zone with the given hostname and value. *)
Definition matching (hostname value : string) (z : list DNSRecord)
  : list DNSRecord :=
  List.filter (fun r => bool_decide (Hostname r = hostname)
                        && bool_decide (RecordType r = "TXT")
                        && bool_decide (Destination r = value)) z.

(** Stored records have distinct ids, handed out by the server, and no
    deletion mark. *)
Definition wf (s : server) : Prop :=
  NoDup (ID <$> zone s)
  /\ Forall (fun r => 0 < ID r < nextID s /\ DeleteRecord r = false) (zone s).

End RefNetcup.

Module RefHostingde.
Import Hostingde.

Record server : Type := {
  zoneConfig : ZoneConfig;
  records : list DNSRecord;
  nextID : nat
}.

(** A record id: a non-empty string, different for every number. *)
Definition fresh (n : nat) : string := String.concat EmptyString (replicate (S n) "i").

(** A stored TXT record carries its content in double quotes. *)
Definition store (r : DNSRecord) (n : nat) : DNSRecord :=
  {| ID := fresh n;
     Name := Name r;
     Type_ := Type_ r;
     Content := if bool_decide (Type_ r = "TXT") then quoted (Content r) else Content r;
     rec_TTL := rec_TTL r |}.

Fixpoint store_all (rs : list DNSRecord) (n : nat) : list DNSRecord :=
  match rs with
  | [] => []
  | r :: rest => store r n :: store_all rest (S n)
  end.

(** A record of the delete-set names a stored record by name, type and
    content. *)
Definition names (d r : DNSRecord) : bool :=
  bool_decide (Name r = Name d)
  && bool_decide (Type_ r = Type_ d)
  && bool_decide (Content r = Content d).

Definition handle (X : Type) (e : api X) : server -> X * server :=
  match e in api X return server -> X * server with
  | getZone _ => fun s => (Ok (zoneConfig s), s)
  | updateZone updateRequest => fun s =>
      let kept := List.filter (fun r => negb (existsb (fun d => names d r)
                                                (RecordsToDelete updateRequest)))
                    (records s) in
      let rs := kept ++ store_all (RecordsToAdd updateRequest) (nextID s) in
      (Ok {| Response := {| resp_ZoneConfig := req_ZoneConfig updateRequest;
                            Records := rs |} |},
       {| zoneConfig := zoneConfig s;
          records := rs;
          nextID := nextID s + length (RecordsToAdd updateRequest) |})
  end.

(** The record [Present] adds and the record [CleanUp] asks to delete. *)
Definition challenge (d : Config) (fqdn value : string) : DNSRecord :=
  {| ID := EmptyString; Name := UnFqdn fqdn; Type_ := "TXT";
     Content := value; rec_TTL := TTL d |}.

Definition probe (fqdn value : string) : DNSRecord :=
  {| ID := EmptyString; Name := UnFqdn fqdn; Type_ := "TXT";
     Content := quoted value; rec_TTL := 0 |}.

(** A provider that answers from a script, whatever it is asked. *)
Record script : Type := {
  zoneAnswer : res ZoneConfig;
  updateAnswer : res ZoneUpdateResponse
}.

Definition scripted (a : script) (X : Type) (e : api X) : unit -> X * unit :=
  match e in api X return unit -> X * unit with
  | getZone _ => fun u => (zoneAnswer a, u)
  | updateZone _ => fun u => (updateAnswer a, u)
  end.

End RefHostingde.

(** ** Sample runs *)

Module Sample.

Definition fqdn : string := "_acme-challenge.example.com.".

Definition inwx : Inwx.Config :=
  {| Inwx.Username := "user"; Inwx.Password := "secret";
     Inwx.Sandbox := false; Inwx.TTL := 300 |}.

Definition inwx_record (id : Z) (content : string) : Inwx.NameserverRecord :=
  {| Inwx.ID := id; Inwx.Name := "_acme-challenge.example.com";
     Inwx.Type_ := "TXT"; Inwx.Content := content; Inwx.rec_TTL := 300 |}.

(** An inwx zone with the given records, locked ids and create refusal. *)
Definition inwx_server (z : list Inwx.NameserverRecord) (n : Z)
    (locked : list Z) (createError : option error) : RefInwx.server :=
  {| RefInwx.authZone := "example.com."; RefInwx.zone := z;
     RefInwx.nextID := n; RefInwx.locked := locked;
     RefInwx.createError := createError |}.

Definition netcup : Netcup.Config :=
  {| Netcup.Key := "key"; Netcup.Password := "secret";
     Netcup.Customer := "4711"; Netcup.TTL := 300 |}.

Definition netcup_record (id : Z) (destination : string) (ttl : Z)
  : Netcup.DNSRecord :=
  {| Netcup.ID := id; Netcup.Hostname := "_acme-challenge";
     Netcup.RecordType := "TXT"; Netcup.Destination := destination;
     Netcup.DeleteRecord := false; Netcup.rec_TTL := ttl |}.

(** A TXT record of another host of the zone. *)
Definition netcup_www (id : Z) (destination : string) : Netcup.DNSRecord :=
  {| Netcup.ID := id; Netcup.Hostname := "www";
     Netcup.RecordType := "TXT"; Netcup.Destination := destination;
     Netcup.DeleteRecord := false; Netcup.rec_TTL := 300 |}.

Definition netcup_server (z : list Netcup.DNSRecord) (n : Z)
    (fetchError updateError : option error) : RefNetcup.server :=
  {| RefNetcup.authZone := "example.com."; RefNetcup.zone := z;
     RefNetcup.nextID := n; RefNetcup.fetchError := fetchError;
     RefNetcup.updateError := updateError |}.

Definition hostingde : Hostingde.Config :=
  {| Hostingde.APIKey := "key"; Hostingde.ZoneName := "example.com";
     Hostingde.TTL := 300 |}.

Definition hostingde_zone : Hostingde.ZoneConfig :=
  {| Hostingde.zone_ID := "zone-1"; Hostingde.zone_Name := "example.com" |}.


(** A hosting.de update answer listing the given records. *)
Definition hostingde_answer (rs : list Hostingde.DNSRecord)
  : res Hostingde.ZoneUpdateResponse :=
  Ok {| Hostingde.Response :=
          {| Hostingde.resp_ZoneConfig := hostingde_zone;
             Hostingde.Records := rs |} |}.

Definition hostingde_record (id content : string) : Hostingde.DNSRecord :=
  {| Hostingde.ID := id; Hostingde.Name := "_acme-challenge.example.com";
     Hostingde.Type_ := "TXT"; Hostingde.Content := content;
     Hostingde.rec_TTL := 300 |}.

Definition timeout : error := ErrorString "request timed out".

(** Providers that refuse the login and would answer everything else. *)
Definition inwx_login_refused (X : Type) (e : Inwx.api X) : unit -> X * unit :=
  match e in Inwx.api X return unit -> X * unit with
  | Inwx.FindZoneByFqdn _ => fun u => (Ok "example.com.", u)
  | Inwx.Login => fun u => (Some (ErrorResponse 2200 "Authentication error"), u)
  | Inwx.Logout => fun u => (None, u)
  | Inwx.CreateRecord _ => fun u => (Ok 1, u)
  | Inwx.Info _ => fun u => (Ok [], u)
  | Inwx.DeleteRecord _ => fun u => (None, u)
  end.

Definition netcup_login_refused (X : Type) (e : Netcup.api X) : unit -> X * unit :=
  match e in Netcup.api X return unit -> X * unit with
  | Netcup.FindZoneByFqdn _ => fun u => (Ok "example.com.", u)
  | Netcup.Login => fun u => (Err (ErrorString "login failed"), u)
  | Netcup.Logout _ => fun u => (None, u)
  | Netcup.GetDNSRecords _ _ => fun u => (([], None), u)
  | Netcup.UpdateDNSRecord _ _ _ => fun u => (None, u)
  end.

(** A record lookup that answers with an index past the end. *)
Definition index_past_end (records : list Netcup.DNSRecord)
    (record : Netcup.DNSRecord) : Z * option error :=
  (Z.of_nat (length records), None).

(** checkdomain methods that always succeed; the domain lookup caches the
    id it answers with under the name it was asked for. *)
Definition checkdomain_methods : Checkdomain.methods unit :=
  {| Checkdomain.getDomainIDByName := fun name d =>
       (Ok 42,
        {| Checkdomain.config := Checkdomain.config d;
           Checkdomain.domainIDMapping :=
             <[name := 42]> (Checkdomain.domainIDMapping d);
           Checkdomain.remote := Checkdomain.remote d |});
     Checkdomain.checkNameservers := fun _ d => (None, d);
     Checkdomain.createRecord := fun _ _ d => (None, d);
     Checkdomain.deleteTXTRecord := fun _ _ _ d => (None, d) |}.

Definition checkdomain_provider (mapping : gmap string Z)
  : Checkdomain.DNSProvider unit :=
  {| Checkdomain.config := {| Checkdomain.Token := "token"; Checkdomain.TTL := 300 |};
     Checkdomain.domainIDMapping := mapping;
     Checkdomain.remote := tt |}.

End Sample.

(** ** What the properties speak of *)

(** The session was closed exactly once, by the last call made. *)
Definition logout_once {E : Type -> Type} (is_Logout : event E -> bool)
    (t : list (event E)) : Prop :=
  length (List.filter is_Logout t) = 1%nat
  /\ is_Logout <$> last t = Some true.

(** The returned error reports every one of the given failures. *)
Definition aggregates (r : option error) (errs : list error) : Prop :=
  forall e, e ∈ errs -> exists err, r = Some err /\ e ∈ chain err.

(** The helper [GetDNSRecordIdx] answers with the index of a record that
    has the probe's type and destination; the hostname is not asked for. *)
Definition finds_by_value
    (idx : list Netcup.DNSRecord -> Netcup.DNSRecord -> Z * option error) : Prop :=
  forall records record i,
    idx records record = (i, None) ->
    exists found,
      index records i = Some found
      /\ Netcup.RecordType found = Netcup.RecordType record
      /\ Netcup.Destination found = Netcup.Destination record.

(** * Properties *)

(** ** Running programs *)

Section ProgFacts.
Context {E : Type -> Type} {W : Type} (h : forall X, E X -> W -> X * W).

Lemma run_Vis {R X : Type} (e : E X) (k : X -> prog E R) (w : W) :
  run h (Vis e k) w =
  (result (run h (k (h X e w).1) (h X e w).2),
   final (run h (k (h X e w).1) (h X e w).2),
   Event e (h X e w).1 :: trace (run h (k (h X e w).1) (h X e w).2)).
Proof.
  simpl. destruct (h X e w) as [x w1]. simpl.
  destruct (run h (k x) w1) as [[r w2] t]. reflexivity.
Qed.

Lemma run_bind {A B : Type} (p : prog E A) (f : A -> prog E B) (w : W) :
  run h (bind p f) w =
  (result (run h (f (result (run h p w))) (final (run h p w))),
   final (run h (f (result (run h p w))) (final (run h p w))),
   trace (run h p w) ++ trace (run h (f (result (run h p w))) (final (run h p w)))).
Proof.
  revert w. induction p as [a | X e k IH]; intros w.
  - simpl. destruct (run h (f a) w) as [[b w2] t2]. reflexivity.
  - cbn [bind]. rewrite !run_Vis, IH. reflexivity.
Qed.

Lemma run_call {X : Type} (e : E X) (w : W) :
  run h (call e) w = ((h X e w).1, (h X e w).2, [Event e (h X e w).1]).
Proof. unfold call. rewrite run_Vis. reflexivity. Qed.
End ProgFacts.

(** Answer the next call of the program under [run]. *)
Ltac answer :=
  cbn [bind];
  match goal with
  | |- context [run ?h (Vis ?e ?k) ?w] =>
      let x := fresh "x" in
      let w' := fresh "w" in
      rewrite (run_Vis h e k w);
      destruct (h _ e w) as [x w'] eqn:?;
      cbn [fst snd result final trace]
  end.

Lemma logout_once_bracket {E : Type -> Type} (is_Logout : event E -> bool)
    (before body : list (event E)) (ev : event E) :
  List.filter is_Logout before = [] ->
  List.filter is_Logout body = [] ->
  is_Logout ev = true ->
  logout_once is_Logout (before ++ body ++ [ev]).
Proof.
  intros Hb Hbody Hev. split.
  - rewrite !List.filter_app, Hb, Hbody. simpl. rewrite Hev. reflexivity.
  - rewrite !app_assoc, last_snoc. simpl. rewrite Hev. reflexivity.
Qed.

(** ** inwx, against any provider *)

Section InwxFacts.
Import Inwx.
Context {W : Type} (h : forall X, api X -> W -> X * W).

Lemma inwx_defer_Logout {R : Type} (body : prog api R) (w : W) :
  run h (defer_Logout body) w
  = (result (run h body w),
     (h _ Logout (final (run h body w))).2,
     trace (run h body w) ++ [Event Logout (h _ Logout (final (run h body w))).1]).
Proof.
  unfold defer_Logout. rewrite run_bind, run_bind, run_call. reflexivity.
Qed.

Lemma inwx_delete_records_quiet (records : list NameserverRecord)
    (lastErr : option error) (w : W) :
  List.filter is_Logout (trace (run h (delete_records records lastErr) w)) = [].
Proof.
  revert lastErr w. induction records as [| record rest IH]; intros lastErr w.
  - reflexivity.
  - cbn [delete_records]. unfold call. answer.
    destruct x as [e |]; apply IH.
Qed.

(** The loop calls [DeleteRecord] for every record, in order, and ends
    with the last failure in [lastErr]. *)
Lemma inwx_delete_records_all (records : list NameserverRecord)
    (lastErr : option error) (w : W) :
  let o := run h (delete_records records lastErr) w in
  (deletions (trace o)).*1 = ID <$> records
  /\ result o = last_failure (deletions (trace o)) lastErr
  /\ listings (trace o) = [].
Proof.
  revert lastErr w. induction records as [| record rest IH]; intros lastErr w.
  - repeat split.
  - cbn [delete_records]. unfold call. answer.
    destruct x as [e |].
    + destruct (IH (Some (Errorf "inwx: " e)) w0) as (Hids & Hres & Hl).
      unfold deletions, listings in *. cbn -[run]. rewrite Hids. auto.
    + destruct (IH lastErr w0) as (Hids & Hres & Hl).
      unfold deletions, listings in *. cbn -[run]. rewrite Hids. auto.
Qed.

Lemma inwx_Present_logout (d : Config) (domain token fqdn value : string) (w : W) :
  existsb Login_ok (trace (run h (Present d domain token fqdn value) w)) = true ->
  logout_once is_Logout (trace (run h (Present d domain token fqdn value) w)).
Proof.
  unfold Present, call. answer. destruct x as [authZone | err]; [| discriminate].
  answer. destruct x as [err |]; [discriminate |]. intros _.
  rewrite inwx_defer_Logout. cbn [trace].
  apply (logout_once_bracket is_Logout [_; _]); [reflexivity | | reflexivity].
  answer. destruct x as [recID | err]; [reflexivity |].
  destruct err; [case_bool_decide |..]; reflexivity.
Qed.

Lemma inwx_CleanUp_logout (d : Config) (domain token fqdn value : string) (w : W) :
  existsb Login_ok (trace (run h (CleanUp d domain token fqdn value) w)) = true ->
  logout_once is_Logout (trace (run h (CleanUp d domain token fqdn value) w)).
Proof.
  unfold CleanUp, call. answer. destruct x as [authZone | err]; [| discriminate].
  answer. destruct x as [err |]; [discriminate |]. intros _.
  rewrite inwx_defer_Logout. cbn [trace].
  apply (logout_once_bracket is_Logout [_; _]); [reflexivity | | reflexivity].
  answer. destruct x as [records | err]; [| reflexivity].
  cbn [List.filter is_Logout]. apply inwx_delete_records_quiet.
Qed.

(** C4: when the provider answers the create-record call of inwx's
    [Present] with an error response whose message is "Object exists",
    [Present] returns nil. *)
Theorem inwx_Present_object_exists (d : Config)
    (domain token fqdn value : string) (w : W)
    (request : NameserverRecordRequest) (code : Z) :
  creations (trace (run h (Present d domain token fqdn value) w))
    = [(request, Err (ErrorResponse code "Object exists"))] ->
  result (run h (Present d domain token fqdn value) w) = None.
Proof.
  unfold Present, defer_Logout, call.
  answer. destruct x as [authZone | err]; [| discriminate].
  answer. destruct x as [err |]; [discriminate |].
  answer. destruct x as [recID | err].
  - answer. discriminate.
  - destruct err as [c Message | msg | prefix cause].
    + case_bool_decide as HM.
      * answer. reflexivity.
      * answer. cbn. intros Hc. congruence.
    + answer. discriminate.
    + answer. discriminate.
Qed.

(** The value is no part of what inwx's [CleanUp] does. *)
Lemma inwx_CleanUp_ignores_value (d : Config)
    (domain token fqdn value value' : string) :
  CleanUp d domain token fqdn value = CleanUp d domain token fqdn value'.
Proof. reflexivity. Qed.

(** C9, as the code has it: when the listing of inwx's [CleanUp]
    succeeds, deletion is attempted for every listed record, in order and
    whatever the earlier deletions answered, and the error returned is the
    last deletion failure alone (nil when there was none). *)
Theorem inwx_CleanUp_deletes_all_returns_last (d : Config)
    (domain token fqdn value : string) (w : W)
    (request : NameserverInfoRequest) (records : list NameserverRecord) :
  listings (trace (run h (CleanUp d domain token fqdn value) w))
    = [(request, Ok records)] ->
  (deletions (trace (run h (CleanUp d domain token fqdn value) w))).*1
    = ID <$> records
  /\ result (run h (CleanUp d domain token fqdn value) w)
     = last_failure
         (deletions (trace (run h (CleanUp d domain token fqdn value) w))) None.
Proof.
  unfold CleanUp, call.
  answer. destruct x as [authZone | err]; [| discriminate].
  answer. destruct x as [err |]; [discriminate |].
  rewrite inwx_defer_Logout. cbn [result trace].
  answer. destruct x as [found | err]; [| discriminate].
  destruct (inwx_delete_records_all found None w2) as (Hids & Hres & Hl).
  cbn -[run]. unfold listings, deletions in *. rewrite !omap_app.
  cbn -[run]. rewrite !app_nil_r, Hl. intros [= _ <-].
  split; [exact Hids | exact Hres].
Qed.
End InwxFacts.

(** ** netcup, against any provider *)

Section NetcupFacts.
Import Netcup.
Context {W : Type} (h : forall X, api X -> W -> X * W).

Lemma netcup_defer_Logout {R : Type} (sessionID : string)
    (body : prog api R) (w : W) :
  run h (defer_Logout sessionID body) w
  = (result (run h body w),
     (h _ (Logout sessionID) (final (run h body w))).2,
     trace (run h body w)
     ++ [Event (Logout sessionID)
           (h _ (Logout sessionID) (final (run h body w))).1]).
Proof.
  unfold defer_Logout. rewrite run_bind, run_bind, run_call. reflexivity.
Qed.

Lemma netcup_Present_logout (d : Config)
    (domainName token fqdn value : string) (w : W) :
  existsb Login_ok (trace (run h (Present d domainName token fqdn value) w)) = true ->
  logout_once is_Logout (trace (run h (Present d domainName token fqdn value) w)).
Proof.
  unfold Present, call. answer. destruct x as [zone | err]; [| discriminate].
  answer. destruct x as [sessionID | err]; [| discriminate]. intros _.
  rewrite netcup_defer_Logout. cbn [trace].
  apply (logout_once_bracket is_Logout [_; _]); [reflexivity | | reflexivity].
  answer. answer. destruct x0; reflexivity.
Qed.

Lemma netcup_CleanUp_logout
    (idx : list DNSRecord -> DNSRecord -> Z * option error) (d : Config)
    (domainName token fqdn value : string) (w : W) :
  existsb Login_ok
    (trace (run h (CleanUp idx d domainName token fqdn value) w)) = true ->
  logout_once is_Logout
    (trace (run h (CleanUp idx d domainName token fqdn value) w)).
Proof.
  unfold CleanUp, call. answer. destruct x as [zone | err]; [| discriminate].
  answer. destruct x as [sessionID | err]; [| discriminate]. intros _.
  rewrite netcup_defer_Logout. cbn [trace].
  apply (logout_once_bracket is_Logout [_; _]); [reflexivity | | reflexivity].
  answer. destruct x as [records [err |]]; cbn [fst snd]; [reflexivity |].
  destruct (idx records _) as [i [err |]]; [reflexivity |].
  destruct (index records i) as [found |]; [| reflexivity].
  answer. destruct x; reflexivity.
Qed.

(** Once logged in, netcup's [Present] submits what the fetch answered
    with the new record appended: whether the fetch reported an error,
    and whether the fetched list already holds an equal record, plays no
    part. *)
Lemma netcup_Present_submits (d : Config)
    (domainName token fqdn value zone : string) (w : W)
    (fetched : list DNSRecord * option error) :
  resolutions (trace (run h (Present d domainName token fqdn value) w))
    = [Ok zone] ->
  fetches (trace (run h (Present d domainName token fqdn value) w))
    = [fetched] ->
  submissions (trace (run h (Present d domainName token fqdn value) w))
    = [fetched.1
       ++ [ {| ID := 0;
               Hostname := replace_first fqdn ("." +:+ zone) EmptyString;
               RecordType := "TXT";
               Destination := value;
               DeleteRecord := false;
               rec_TTL := TTL d |} ]].
Proof.
  unfold Present, call. answer.
  destruct x as [authZone | err]; [| cbn; discriminate].
  answer. destruct x as [sessionID | err]; [| cbn; discriminate].
  rewrite netcup_defer_Logout. cbn [trace].
  answer. answer.
  unfold resolutions, fetches, submissions.
  destruct x0; cbn; intros [= ->] [= ->]; reflexivity.
Qed.

(** After the fetch, whatever it answered, [Present] makes one update
    call, and returns what that call answered. *)
Lemma netcup_Present_answers (d : Config)
    (domainName token fqdn value : string) (w : W)
    (fetched : list DNSRecord * option error) :
  fetches (trace (run h (Present d domainName token fqdn value) w)) = [fetched] ->
  exists answer,
    update_answers (trace (run h (Present d domainName token fqdn value) w)) = [answer]
    /\ result (run h (Present d domainName token fqdn value) w)
       = match answer with
         | Some err => Some (Errorf "netcup: failed to add TXT-Record: " err)
         | None => None
         end.
Proof.
  unfold Present, call. answer. destruct x as [zone | err]; [| cbn; discriminate].
  answer. destruct x as [sessionID | err]; [| cbn; discriminate].
  rewrite netcup_defer_Logout. cbn [result trace].
  answer. answer. intros _. exists x0. destruct x0; cbn; auto.
Qed.
End NetcupFacts.

(** C3: in inwx's and netcup's [Present] and [CleanUp], whenever the
    login succeeded and the call then ends in an error (or, for netcup's
    [CleanUp], a panic), the logout is called exactly once, as the last
    call before the method returns. *)
Theorem session_logout_once_on_failure :
  (forall (W : Type) (h : forall X, Inwx.api X -> W -> X * W) (d : Inwx.Config)
          (domain token fqdn value : string) (w : W) (err : error),
      existsb Inwx.Login_ok
        (trace (run h (Inwx.Present d domain token fqdn value) w)) = true ->
      result (run h (Inwx.Present d domain token fqdn value) w) = Some err ->
      logout_once Inwx.is_Logout
        (trace (run h (Inwx.Present d domain token fqdn value) w)))
  /\ (forall (W : Type) (h : forall X, Inwx.api X -> W -> X * W) (d : Inwx.Config)
             (domain token fqdn value : string) (w : W) (err : error),
      existsb Inwx.Login_ok
        (trace (run h (Inwx.CleanUp d domain token fqdn value) w)) = true ->
      result (run h (Inwx.CleanUp d domain token fqdn value) w) = Some err ->
      logout_once Inwx.is_Logout
        (trace (run h (Inwx.CleanUp d domain token fqdn value) w)))
  /\ (forall (W : Type) (h : forall X, Netcup.api X -> W -> X * W)
             (d : Netcup.Config) (domainName token fqdn value : string) (w : W)
             (err : error),
      existsb Netcup.Login_ok
        (trace (run h (Netcup.Present d domainName token fqdn value) w)) = true ->
      result (run h (Netcup.Present d domainName token fqdn value) w) = Some err ->
      logout_once Netcup.is_Logout
        (trace (run h (Netcup.Present d domainName token fqdn value) w)))
  /\ (forall (W : Type) (h : forall X, Netcup.api X -> W -> X * W)
             (idx : list Netcup.DNSRecord -> Netcup.DNSRecord -> Z * option error)
             (d : Netcup.Config) (domainName token fqdn value : string) (w : W),
      existsb Netcup.Login_ok
        (trace (run h (Netcup.CleanUp idx d domainName token fqdn value) w)) = true ->
      result (run h (Netcup.CleanUp idx d domainName token fqdn value) w)
        <> Returned None ->
      logout_once Netcup.is_Logout
        (trace (run h (Netcup.CleanUp idx d domainName token fqdn value) w))).
Proof.
  split; [| split; [| split]]; intros.
  - apply inwx_Present_logout; assumption.
  - apply inwx_CleanUp_logout; assumption.
  - apply netcup_Present_logout; assumption.
  - apply netcup_CleanUp_logout; assumption.
Qed.

(** ** hosting.de, against any provider *)

Section HostingdeFacts.
Import Hostingde.
Context {W : Type} (h : forall X, api X -> W -> X * W).

Lemma store_ids_unconfirmed (records : list DNSRecord) (fqdn value : string)
    (recordIDs : gmap string string) :
  Forall (fun record => confirms fqdn value record = false) records ->
  store_ids records fqdn value recordIDs = recordIDs.
Proof.
  intros Hall. revert recordIDs.
  induction Hall as [| record rest Hr _ IH]; intros recordIDs; simpl.
  - reflexivity.
  - rewrite Hr. apply IH.
Qed.

(** Other keys of the map are never written. *)
Lemma store_ids_other (records : list DNSRecord) (fqdn value key : string)
    (recordIDs : gmap string string) :
  key <> fqdn ->
  store_ids records fqdn value recordIDs !! key = recordIDs !! key.
Proof.
  intros Hne. revert recordIDs.
  induction records as [| record rest IH]; intros recordIDs; simpl.
  - reflexivity.
  - rewrite IH. destruct (confirms fqdn value record); [| reflexivity].
    apply lookup_insert_ne. congruence.
Qed.

Lemma get_nonempty (recordIDs : gmap string string) (fqdn : string) :
  get recordIDs fqdn <> EmptyString ->
  exists id, recordIDs !! fqdn = Some id /\ id <> EmptyString.
Proof.
  unfold get. destruct (recordIDs !! fqdn) as [id |]; simpl; intros Hne.
  - exists id. split; [reflexivity | exact Hne].
  - congruence.
Qed.

Lemma hostingde_Present_cached (d : Config) (recordIDs recordIDs' : gmap string string)
    (domain token fqdn value : string) (w : W) :
  result (run h (Present d recordIDs domain token fqdn value) w)
    = (None, recordIDs') ->
  exists id, recordIDs' !! fqdn = Some id /\ id <> EmptyString.
Proof.
  unfold Present, call. answer. destruct x as [zoneConfig | err]; [| discriminate].
  answer. destruct x as [resp | err]; [| discriminate].
  case_bool_decide as Hget; cbn; intros [= <-].
  apply get_nonempty. exact Hget.
Qed.

Lemma hostingde_CleanUp_uncached (d : Config) (recordIDs recordIDs' : gmap string string)
    (domain token fqdn value : string) (w : W) :
  result (run h (CleanUp d recordIDs domain token fqdn value) w)
    = (None, recordIDs') ->
  recordIDs' !! fqdn = None.
Proof.
  unfold CleanUp, call. answer. destruct x as [zoneConfig | err]; [| discriminate].
  answer. destruct x as [resp | err]; [| discriminate].
  cbn. intros [= <-]. apply lookup_delete_eq.
Qed.

(** When the response confirms nothing and the map holds nothing for the
    name, [Present] does report the missing id. *)
Lemma hostingde_Present_unconfirmed_fresh (d : Config)
    (recordIDs : gmap string string) (domain token fqdn value : string)
    (w : W) (resp : ZoneUpdateResponse) :
  get recordIDs fqdn = EmptyString ->
  updates (trace (run h (Present d recordIDs domain token fqdn value) w))
    = [Ok resp] ->
  Forall (fun record => confirms fqdn value record = false)
    (Records (Response resp)) ->
  result (run h (Present d recordIDs domain token fqdn value) w)
    = (Some (ErrorString
               ("hostingde: error getting ID of just created record, for domain "
                +:+ domain)),
       recordIDs).
Proof.
  intros Hget. unfold Present, call.
  answer. destruct x as [zoneConfig | err]; [| cbn; discriminate].
  answer. destruct x as [resp' | err]; [| cbn; discriminate].
  intros Hup Hall. assert (resp' = resp) as -> by (cbn in Hup; congruence).
  rewrite (store_ids_unconfirmed _ _ _ _ Hall).
  rewrite bool_decide_eq_true_2 by exact Hget. reflexivity.
Qed.

(** C10: when the map already holds a non-empty id for the name and the
    successful update's response holds no record with the name and the
    quoted value, hosting.de's [Present] returns nil and leaves the map
    as it was: the check reads the map entry, not the outcome of the
    scan. *)
Theorem hostingde_Present_stale_id_passes (d : Config)
    (recordIDs : gmap string string) (domain token fqdn value : string)
    (w : W) (id : string) (resp : ZoneUpdateResponse) :
  recordIDs !! fqdn = Some id ->
  id <> EmptyString ->
  updates (trace (run h (Present d recordIDs domain token fqdn value) w))
    = [Ok resp] ->
  Forall (fun record => confirms fqdn value record = false)
    (Records (Response resp)) ->
  result (run h (Present d recordIDs domain token fqdn value) w)
    = (None, recordIDs).
Proof.
  intros Hid Hne. unfold Present, call.
  answer. destruct x as [zoneConfig | err]; [| cbn; discriminate].
  answer. destruct x as [resp' | err]; [| cbn; discriminate].
  intros Hup Hall. assert (resp' = resp) as -> by (cbn in Hup; congruence).
  rewrite (store_ids_unconfirmed _ _ _ _ Hall).
  rewrite bool_decide_eq_false_2; [reflexivity |].
  unfold get. rewrite Hid. exact Hne.
Qed.

Lemma hostingde_Present_fetch_fails (d : Config)
    (recordIDs : gmap string string) (domain token fqdn value : string)
    (w : W) (err : error) :
  fetches (trace (run h (Present d recordIDs domain token fqdn value) w))
    = [Err err] ->
  result (run h (Present d recordIDs domain token fqdn value) w)
    = (Some (Errorf "hostingde: " err), recordIDs)
  /\ submissions (trace (run h (Present d recordIDs domain token fqdn value) w))
     = [].
Proof.
  unfold Present, call. answer. destruct x as [zoneConfig | err'].
  - answer. destruct x as [resp | err'']; [case_bool_decide |]; cbn; discriminate.
  - cbn. intros [= ->]. split; reflexivity.
Qed.

(** The delete-set of [CleanUp] is one record: the name, TXT and the
    quoted value.  The map is not consulted to build it. *)
Lemma hostingde_CleanUp_delete_set (d : Config)
    (recordIDs : gmap string string) (domain token fqdn value : string)
    (w : W) (request : ZoneUpdateRequest) :
  request ∈ submissions
              (trace (run h (CleanUp d recordIDs domain token fqdn value) w)) ->
  RecordsToAdd request = []
  /\ RecordsToDelete request
     = [ {| ID := EmptyString; Name := UnFqdn fqdn; Type_ := "TXT";
            Content := quoted value; rec_TTL := 0 |} ].
Proof.
  unfold CleanUp, call. answer. destruct x as [zoneConfig | err].
  - answer. destruct x as [resp | err]; cbn;
      intros Hin; apply list_elem_of_singleton in Hin; subst request;
      split; reflexivity.
  - cbn. intros Hin. inversion Hin.
Qed.

Lemma hostingde_CleanUp_ignores_map (d : Config)
    (recordIDs recordIDs' : gmap string string)
    (domain token fqdn value : string) (w : W) :
  trace (run h (CleanUp d recordIDs domain token fqdn value) w)
  = trace (run h (CleanUp d recordIDs' domain token fqdn value) w).
Proof.
  unfold CleanUp, call. cbn [bind]. rewrite !run_Vis.
  destruct (h _ (getZone (zonesFind d)) w) as [[zoneConfig | err] w1];
    cbn [fst snd bind]; [| reflexivity].
  rewrite !run_Vis.
  destruct (h _ (updateZone _) w1) as [[resp | err] w2]; reflexivity.
Qed.
End HostingdeFacts.

(** ** checkdomain *)

Section CheckdomainFacts.
Import Checkdomain.
Context {W : Type} (m : methods W).

Lemma checkdomain_CleanUp_uncached (domain token fqdn value : string)
    (d d' : DNSProvider W) :
  CleanUp m domain token fqdn value d = (None, d') ->
  domainIDMapping d' !! fqdn = None.
Proof.
  unfold CleanUp.
  destruct (getDomainIDByName m domain d) as [[domainID | err] d1]; [| discriminate].
  destruct (checkNameservers m domainID d1) as [[err |] d2]; [discriminate |].
  destruct (deleteTXTRecord m domainID fqdn value d2) as [[err |] d3]; [discriminate |].
  intros [= <-]. simpl. apply lookup_delete_eq.
Qed.
End CheckdomainFacts.

(** ** Lists *)

Lemma existsb_false_filter {A : Type} (f : A -> bool) (l : list A) :
  existsb f l = false -> List.filter f l = [].
Proof.
  induction l as [| a l IH]; simpl; [reflexivity |].
  destruct (f a); simpl; [discriminate | exact IH].
Qed.

Lemma existsb_true_filter {A : Type} (f : A -> bool) (l : list A) :
  existsb f l = true -> (1 <= length (List.filter f l))%nat.
Proof.
  induction l as [| a l IH]; simpl; [discriminate |].
  destruct (f a); simpl; [lia | exact IH].
Qed.

Lemma filter_all {A : Type} (f : A -> bool) (l : list A) :
  Forall (fun a => f a = true) l -> List.filter f l = l.
Proof.
  induction 1 as [| a l Ha _ IH]; simpl; [reflexivity |].
  rewrite Ha, IH. reflexivity.
Qed.

Lemma filter_none {A : Type} (f : A -> bool) (l : list A) :
  Forall (fun a => f a = false) l -> List.filter f l = [].
Proof.
  induction 1 as [| a l Ha _ IH]; simpl; [reflexivity |].
  rewrite Ha, IH. reflexivity.
Qed.

(** ** inwx, against the reference server *)

Section RefInwxFacts.
Import Inwx RefInwx.

Lemma refinwx_Present (d : Config) (domain token fqdn value : string) (s : server) :
  createError s = None ->
  result (run handle (Present d domain token fqdn value) s) = None
  /\ final (run handle (Present d domain token fqdn value) s)
     = if existsb (holds (challenge d s fqdn value)) (zone s)
       then s
       else set_zone s (zone s ++ [created d s fqdn value]) (nextID s + 1).
Proof.
  intros Hc. unfold Present, defer_Logout, call. cbn -[existsb]. rewrite Hc.
  fold (challenge d s fqdn value).
  destruct (existsb (holds (challenge d s fqdn value)) (zone s)); cbn; auto.
Qed.

Lemma holds_created (d : Config) (s : server) (fqdn value : string) :
  holds (challenge d s fqdn value) (created d s fqdn value) = true.
Proof.
  unfold holds, challenge, created. cbn.
  rewrite !bool_decide_eq_true_2 by reflexivity. reflexivity.
Qed.

Lemma matching_holds (d : Config) (s : server) (fqdn value : string)
    (z : list NameserverRecord) :
  matching (UnFqdn fqdn) value z = List.filter (holds (challenge d s fqdn value)) z.
Proof. reflexivity. Qed.

Lemma refinwx_Present_twice (d : Config) (domain token fqdn value : string)
    (s : server) :
  createError s = None ->
  (length (matching (UnFqdn fqdn) value (zone s)) <= 1)%nat ->
  let o1 := run handle (Present d domain token fqdn value) s in
  let o2 := run handle (Present d domain token fqdn value) (final o1) in
  result o1 = None
  /\ result o2 = None
  /\ length (matching (UnFqdn fqdn) value (zone (final o2))) = 1%nat.
Proof.
  intros Hc Hle o1 o2. subst o1 o2.
  destruct (refinwx_Present d domain token fqdn value s Hc) as [Hr1 Hf1].
  rewrite Hf1. clear Hf1.
  destruct (existsb (holds (challenge d s fqdn value)) (zone s)) eqn:Hex.
  - destruct (refinwx_Present d domain token fqdn value s Hc) as [Hr2 Hf2].
    rewrite Hf2, Hex. repeat split; try assumption.
    apply existsb_true_filter in Hex.
    rewrite (matching_holds d s) in *. lia.
  - set (s1 := set_zone s _ _).
    destruct (refinwx_Present d domain token fqdn value s1 Hc) as [Hr2 Hf2].
    rewrite Hf2. repeat split; try assumption.
    assert (existsb (holds (challenge d s1 fqdn value)) (zone s1) = true) as ->.
    { subst s1. cbn [zone set_zone]. rewrite existsb_app.
      change (challenge d (set_zone s _ _) fqdn value) with (challenge d s fqdn value).
      rewrite Hex. cbn [existsb orb]. rewrite holds_created. reflexivity. }
    subst s1. cbn [zone set_zone].
    rewrite (matching_holds d s), List.filter_app, (existsb_false_filter _ _ Hex).
    cbn [List.filter app]. rewrite holds_created. reflexivity.
Qed.



End RefInwxFacts.

(** ** netcup, against the reference server *)

Section RefNetcupFacts.
Import Netcup RefNetcup.






Lemma index_elem_of {A : Type} (l : list A) (i : Z) (a : A) :
  index l i = Some a -> a ∈ l.
Proof.
  unfold index. case_bool_decide; [| discriminate].
  apply list_elem_of_lookup_2.
Qed.


Lemma GetDNSRecordIdx_from_sound (records : list DNSRecord) (record : DNSRecord)
    (k i : Z) :
  0 <= k ->
  GetDNSRecordIdx_from k records record = (i, None) ->
  k <= i /\
  exists found,
    records !! Z.to_nat (i - k) = Some found
    /\ RecordType found = RecordType record
    /\ Destination found = Destination record.
Proof.
  revert k. induction records as [| element rest IH]; intros k Hk; simpl.
  - discriminate.
  - destruct (bool_decide (Destination element = Destination record)
              && bool_decide (RecordType element = RecordType record)) eqn:Hm.
    + intros [= <-]. split; [lia |]. exists element.
      apply andb_prop in Hm as [Hd Ht].
      apply bool_decide_eq_true_1 in Ht, Hd.
      rewrite Z.sub_diag. auto.
    + intros Hrec. destruct (IH (k + 1) ltac:(lia) Hrec) as (Hle & found & Hl & Hf).
      split; [lia |]. exists found. split; [| exact Hf].
      replace (Z.to_nat (i - k)) with (S (Z.to_nat (i - (k + 1)))) by lia.
      exact Hl.
Qed.

Lemma GetDNSRecordIdx_finds : finds_by_value GetDNSRecordIdx.
Proof.
  intros records record i Hi.
  destruct (GetDNSRecordIdx_from_sound records record 0 i ltac:(lia) Hi)
    as (Hle & found & Hl & Hf).
  exists found. split; [| exact Hf].
  unfold index. rewrite bool_decide_eq_true_2 by lia.
  rewrite Z.sub_0_r in Hl. exact Hl.
Qed.
End RefNetcupFacts.

(** ** hosting.de, against the reference server *)

Section RefHostingdeFacts.
Import Hostingde RefHostingde.



End RefHostingdeFacts.

(** * The adapters' contract *)

(** ** Session bracket *)

Lemma session_logout_once_on_failure_witness :
  (let o := run RefInwx.handle
              (Inwx.Present Sample.inwx "example.com" "token" Sample.fqdn "abc")
              (Sample.inwx_server [] 1 [] (Some Sample.timeout)) in
   existsb Inwx.Login_ok (trace o) = true
   /\ result o = Some (Errorf "inwx: " Sample.timeout)
   /\ logout_once Inwx.is_Logout (trace o))
  /\ (let o := run RefInwx.handle
                 (Inwx.CleanUp Sample.inwx "example.com" "token" Sample.fqdn "abc")
                 (Sample.inwx_server [Sample.inwx_record 1 "abc"] 2 [1] None) in
      existsb Inwx.Login_ok (trace o) = true
      /\ result o = Some (Errorf "inwx: " (ErrorResponse 1 "Record is locked"))
      /\ logout_once Inwx.is_Logout (trace o))
  /\ (let o := run RefNetcup.handle
                 (Netcup.Present Sample.netcup "example.com" "token" Sample.fqdn "abc")
                 (Sample.netcup_server [] 1 None (Some Sample.timeout)) in
      existsb Netcup.Login_ok (trace o) = true
      /\ result o = Some (Errorf "netcup: failed to add TXT-Record: " Sample.timeout)
      /\ logout_once Netcup.is_Logout (trace o))
  /\ (let o := run RefNetcup.handle
                 (Netcup.CleanUp Netcup.GetDNSRecordIdx Sample.netcup
                    "example.com" "token" Sample.fqdn "abc")
                 (Sample.netcup_server [] 1 None None) in
      existsb Netcup.Login_ok (trace o) = true
      /\ result o <> Returned None
      /\ logout_once Netcup.is_Logout (trace o)).
Proof.
  destruct session_logout_once_on_failure as (H1 & H2 & H3 & H4).
  split; [| split; [| split]].
  - split; [reflexivity | split; [reflexivity |]].
    apply (H1 _ RefInwx.handle _ _ _ _ _ _ (Errorf "inwx: " Sample.timeout));
      reflexivity.
  - split; [reflexivity | split; [reflexivity |]].
    apply (H2 _ RefInwx.handle _ _ _ _ _ _
             (Errorf "inwx: " (ErrorResponse 1 "Record is locked")));
      reflexivity.
  - split; [reflexivity | split; [reflexivity |]].
    apply (H3 _ RefNetcup.handle _ _ _ _ _ _
             (Errorf "netcup: failed to add TXT-Record: " Sample.timeout));
      reflexivity.
  - split; [reflexivity | split; [vm_compute; discriminate |]].
    apply (H4 _ RefNetcup.handle); [reflexivity | vm_compute; discriminate].
Defined.

(** ** Idempotent create *)

Lemma inwx_Present_object_exists_witness :
  let o := run RefInwx.handle
             (Inwx.Present Sample.inwx "example.com" "token" Sample.fqdn "abc")
             (Sample.inwx_server [Sample.inwx_record 1 "abc"] 2 [] None) in
  Inwx.creations (trace o)
    = [(RefInwx.challenge Sample.inwx
          (Sample.inwx_server [Sample.inwx_record 1 "abc"] 2 [] None)
          Sample.fqdn "abc",
        Err (ErrorResponse 2302 "Object exists"))]
  /\ result o = None.
Proof.
  split; [reflexivity |].
  apply (inwx_Present_object_exists RefInwx.handle _ _ _ _ _ _
           (RefInwx.challenge Sample.inwx
              (Sample.inwx_server [Sample.inwx_record 1 "abc"] 2 [] None)
              Sample.fqdn "abc") 2302).
  reflexivity.
Defined.

(** ** Deleting what was listed *)

Lemma inwx_CleanUp_deletes_all_returns_last_witness :
  let s := Sample.inwx_server
             [Sample.inwx_record 1 "abc"; Sample.inwx_record 2 "abc"] 3 [1] None in
  let o := run RefInwx.handle
             (Inwx.CleanUp Sample.inwx "example.com" "token" Sample.fqdn "abc") s in
  Inwx.listings (trace o)
    = [({| Inwx.info_Domain := "example.com";
           Inwx.info_Name := "_acme-challenge.example.com";
           Inwx.info_Type := "TXT" |},
        Ok [Sample.inwx_record 1 "abc"; Sample.inwx_record 2 "abc"])]
  /\ (Inwx.deletions (trace o)).*1 = [1; 2]
  /\ result o = Some (Errorf "inwx: " (ErrorResponse 1 "Record is locked"))
  /\ RefInwx.zone (final o) = [Sample.inwx_record 1 "abc"].
Proof.
  intros s o. split; [reflexivity |].
  destruct (inwx_CleanUp_deletes_all_returns_last RefInwx.handle
              Sample.inwx "example.com" "token" Sample.fqdn "abc" s
              {| Inwx.info_Domain := "example.com";
                 Inwx.info_Name := "_acme-challenge.example.com";
                 Inwx.info_Type := "TXT" |}
              [Sample.inwx_record 1 "abc"; Sample.inwx_record 2 "abc"]
              eq_refl) as [Hids Hres].
  split; [exact Hids |]. split; [| reflexivity].
  etransitivity; [exact Hres | reflexivity].
Defined.

(** C9, as the spec words it, fails: with two listed records whose
    deletions both fail, the returned error carries the second failure and
    not the first. *)
Lemma inwx_CleanUp_reports_one_failure :
  let s := Sample.inwx_server
             [Sample.inwx_record 1 "abc"; Sample.inwx_record 2 "abc"] 3 [1; 2] None in
  let o := run RefInwx.handle
             (Inwx.CleanUp Sample.inwx "example.com" "token" Sample.fqdn "abc") s in
  Inwx.failures (Inwx.deletions (trace o))
    = [ErrorResponse 1 "Record is locked"; ErrorResponse 2 "Record is locked"]
  /\ result o = Some (Errorf "inwx: " (ErrorResponse 2 "Record is locked"))
  /\ ~ aggregates (result o) (Inwx.failures (Inwx.deletions (trace o))).
Proof.
  intros s o. split; [reflexivity |]. split; [reflexivity |].
  intros Hagg.
  destruct (Hagg (ErrorResponse 1 "Record is locked")) as (err & Hr & Hin).
  - vm_compute. constructor.
  - vm_compute in Hr. injection Hr as <-. vm_compute in Hin.
    repeat (apply elem_of_cons in Hin as [Hin | Hin]; [discriminate |]).
    inversion Hin.
Qed.

(** C8: the code differs from the claim. inwx's [CleanUp] for the value
    "abc" also deletes the record of the same name whose value is "xyz":
    every listed record is deleted, the value is never compared. *)
Theorem inwx_CleanUp_deletes_other_value :
  let s := Sample.inwx_server
             [Sample.inwx_record 1 "abc"; Sample.inwx_record 2 "xyz"] 3 [] None in
  let o := run RefInwx.handle
             (Inwx.CleanUp Sample.inwx "example.com" "token" Sample.fqdn "abc") s in
  result o = None
  /\ (Inwx.deletions (trace o)).*1 = [1; 2]
  /\ RefInwx.zone (final o) = [].
Proof. repeat split. Qed.

(** ** Presenting twice *)

(** C1, as the code has it: against a provider that answers a repeated
    create with "Object exists", two calls of inwx's [Present] with the same
    arguments both return nil and leave exactly one TXT record with the
    name and value.  netcup's [Present] has no such step: it submits the
    fetched records with the new record appended, whatever was fetched. *)
Theorem Present_twice :
  (forall (d : Inwx.Config) (domain token fqdn value : string) (s : RefInwx.server),
      RefInwx.createError s = None ->
      (length (RefInwx.matching (UnFqdn fqdn) value (RefInwx.zone s)) <= 1)%nat ->
      let o1 := run RefInwx.handle (Inwx.Present d domain token fqdn value) s in
      let o2 := run RefInwx.handle (Inwx.Present d domain token fqdn value) (final o1) in
      result o1 = None
      /\ result o2 = None
      /\ length (RefInwx.matching (UnFqdn fqdn) value (RefInwx.zone (final o2)))
         = 1%nat)
  /\ (forall (W : Type) (h : forall X, Netcup.api X -> W -> X * W)
             (d : Netcup.Config) (domainName token fqdn value zone : string) (w : W)
             (fetched : list Netcup.DNSRecord * option error),
      Netcup.resolutions
        (trace (run h (Netcup.Present d domainName token fqdn value) w)) = [Ok zone] ->
      Netcup.fetches
        (trace (run h (Netcup.Present d domainName token fqdn value) w)) = [fetched] ->
      Netcup.submissions
        (trace (run h (Netcup.Present d domainName token fqdn value) w))
      = [fetched.1
         ++ [ {| Netcup.ID := 0;
                 Netcup.Hostname := replace_first fqdn ("." +:+ zone) EmptyString;
                 Netcup.RecordType := "TXT";
                 Netcup.Destination := value;
                 Netcup.DeleteRecord := false;
                 Netcup.rec_TTL := Netcup.TTL d |} ]]).
Proof.
  split.
  - intros. apply refinwx_Present_twice; assumption.
  - intros. apply netcup_Present_submits; assumption.
Qed.

Lemma Present_twice_witness :
  let s := Sample.inwx_server [] 1 [] None in
  let o1 := run RefInwx.handle
              (Inwx.Present Sample.inwx "example.com" "token" Sample.fqdn "abc") s in
  let o2 := run RefInwx.handle
              (Inwx.Present Sample.inwx "example.com" "token" Sample.fqdn "abc")
              (final o1) in
  RefInwx.createError s = None
  /\ (length (RefInwx.matching (UnFqdn Sample.fqdn) "abc" (RefInwx.zone s)) <= 1)%nat
  /\ result o1 = None
  /\ result o2 = None
  /\ RefInwx.zone (final o2) = [Sample.inwx_record 1 "abc"].
Proof.
  intros s o1 o2.
  destruct (proj1 Present_twice Sample.inwx "example.com" "token" Sample.fqdn "abc" s
              eq_refl ltac:(vm_compute; lia)) as (H1 & H2 & _).
  split; [reflexivity |]. split; [vm_compute; lia |].
  split; [exact H1 |]. split; [exact H2 | reflexivity].
Defined.

(** C1, as the spec words it, fails for netcup: against a provider that
    stores what is submitted, the second [Present] adds the record a second
    time. *)
Lemma netcup_Present_twice_two_records :
  let s := Sample.netcup_server [] 1 None None in
  let o1 := run RefNetcup.handle
              (Netcup.Present Sample.netcup "example.com" "token" Sample.fqdn "abc") s in
  let o2 := run RefNetcup.handle
              (Netcup.Present Sample.netcup "example.com" "token" Sample.fqdn "abc")
              (final o1) in
  result o1 = None
  /\ result o2 = None
  /\ RefNetcup.matching "_acme-challenge" "abc" (RefNetcup.zone (final o2))
     = [Sample.netcup_record 1 "abc" 300; Sample.netcup_record 2 "abc" 300]
  /\ length (RefNetcup.matching "_acme-challenge" "abc" (RefNetcup.zone (final o2)))
     <> 1%nat.
Proof.
  intros s o1 o2. split; [reflexivity |]. split; [reflexivity |].
  split; [reflexivity |]. vm_compute. discriminate.
Qed.

(** ** Present, then CleanUp *)



(** What the netcup condition is for: the helper does not ask for the
    hostname, so with a TXT record of another host that carries the same
    value, [CleanUp] deletes that record and leaves the one [Present]
    created. *)
Lemma netcup_CleanUp_deletes_other_host :
  let s := Sample.netcup_server [Sample.netcup_www 1 "abc"] 2 None None in
  let o1 := run RefNetcup.handle
              (Netcup.Present Sample.netcup "example.com" "token" Sample.fqdn "abc") s in
  let o2 := run RefNetcup.handle
              (Netcup.CleanUp Netcup.GetDNSRecordIdx Sample.netcup
                 "example.com" "token" Sample.fqdn "abc") (final o1) in
  result o1 = None
  /\ result o2 = Returned None
  /\ RefNetcup.zone (final o1)
     = [Sample.netcup_www 1 "abc"; Sample.netcup_record 2 "abc" 300]
  /\ RefNetcup.zone (final o2) = [Sample.netcup_record 2 "abc" 300]
  /\ RefNetcup.zone (final o2) <> RefNetcup.zone s.
Proof.
  intros s o1 o2. repeat split. vm_compute. discriminate.
Qed.


(** ** Confirmation of the created record *)

(** C5: the code differs from the claim. The map already holds an id for
    the name, the update succeeds, its response lists no record at all, and
    hosting.de's [Present] returns nil with the old id still in the map. *)
Theorem hostingde_Present_unconfirmed_returns_nil :
  let h := RefHostingde.scripted
             {| RefHostingde.zoneAnswer := Ok Sample.hostingde_zone;
                RefHostingde.updateAnswer := Sample.hostingde_answer [] |} in
  let o := run h (Hostingde.Present Sample.hostingde {[ Sample.fqdn := "record-7" ]}
                    "example.com" "token" Sample.fqdn "abc") tt in
  Hostingde.updates (trace o) = [Sample.hostingde_answer []]
  /\ (result o).1 = None
  /\ (result o).2 !! Sample.fqdn = Some "record-7".
Proof. repeat split. Qed.

Lemma hostingde_Present_stale_id_passes_witness :
  let h := RefHostingde.scripted
             {| RefHostingde.zoneAnswer := Ok Sample.hostingde_zone;
                RefHostingde.updateAnswer :=
                  Sample.hostingde_answer [Sample.hostingde_record "record-9" "other"] |} in
  let recordIDs : gmap string string := {[ Sample.fqdn := "record-7" ]} in
  let o := run h (Hostingde.Present Sample.hostingde recordIDs
                    "example.com" "token" Sample.fqdn "abc") tt in
  recordIDs !! Sample.fqdn = Some "record-7"
  /\ "record-7" <> EmptyString
  /\ Hostingde.updates (trace o)
     = [Sample.hostingde_answer [Sample.hostingde_record "record-9" "other"]]
  /\ Forall (fun record => Hostingde.confirms Sample.fqdn "abc" record = false)
       [Sample.hostingde_record "record-9" "other"]
  /\ result o = (None, recordIDs).
Proof.
  intros h recordIDs o.
  assert (recordIDs !! Sample.fqdn = Some "record-7") as H1 by reflexivity.
  assert ("record-7" <> EmptyString) as H2 by discriminate.
  assert (Forall (fun record => Hostingde.confirms Sample.fqdn "abc" record = false)
            [Sample.hostingde_record "record-9" "other"]) as H4
    by (repeat constructor).
  split; [exact H1 |]. split; [exact H2 |]. split; [reflexivity |].
  split; [exact H4 |].
  exact (hostingde_Present_stale_id_passes h Sample.hostingde recordIDs
           "example.com" "token" Sample.fqdn "abc" tt "record-7"
           {| Hostingde.Response :=
                {| Hostingde.resp_ZoneConfig := Sample.hostingde_zone;
                   Hostingde.Records := [Sample.hostingde_record "record-9" "other"] |} |}
           H1 H2 eq_refl H4).
Defined.

(** ** A failed zone fetch *)

(** C6, as the code has it: when fetching the zone fails, hosting.de's
    [Present] returns that error and submits nothing; netcup's [Present]
    ignores the error and submits the new record appended to whatever
    records came with it, and its result is that of the submission: nil
    when the update call answered nil, its error (wrapped) otherwise. *)
Theorem Present_zone_fetch_fails :
  (forall (W : Type) (h : forall X, Hostingde.api X -> W -> X * W)
          (d : Hostingde.Config) (recordIDs : gmap string string)
          (domain token fqdn value : string) (w : W) (err : error),
      Hostingde.fetches
        (trace (run h (Hostingde.Present d recordIDs domain token fqdn value) w))
        = [Err err] ->
      result (run h (Hostingde.Present d recordIDs domain token fqdn value) w)
        = (Some (Errorf "hostingde: " err), recordIDs)
      /\ Hostingde.submissions
           (trace (run h (Hostingde.Present d recordIDs domain token fqdn value) w))
         = [])
  /\ (forall (W : Type) (h : forall X, Netcup.api X -> W -> X * W)
             (d : Netcup.Config) (domainName token fqdn value zone : string) (w : W)
             (records : list Netcup.DNSRecord) (err : error),
      Netcup.resolutions
        (trace (run h (Netcup.Present d domainName token fqdn value) w)) = [Ok zone] ->
      Netcup.fetches
        (trace (run h (Netcup.Present d domainName token fqdn value) w))
        = [(records, Some err)] ->
      Netcup.submissions
        (trace (run h (Netcup.Present d domainName token fqdn value) w))
      = [records
         ++ [ {| Netcup.ID := 0;
                 Netcup.Hostname := replace_first fqdn ("." +:+ zone) EmptyString;
                 Netcup.RecordType := "TXT";
                 Netcup.Destination := value;
                 Netcup.DeleteRecord := false;
                 Netcup.rec_TTL := Netcup.TTL d |} ]]
      /\ exists answer,
          Netcup.update_answers
            (trace (run h (Netcup.Present d domainName token fqdn value) w)) = [answer]
          /\ result (run h (Netcup.Present d domainName token fqdn value) w)
             = match answer with
               | Some cause => Some (Errorf "netcup: failed to add TXT-Record: " cause)
               | None => None
               end).
Proof.
  split.
  - intros. apply hostingde_Present_fetch_fails. assumption.
  - intros W h d domainName token fqdn value zone w records err Hz Hf. split.
    + apply (netcup_Present_submits h d domainName token fqdn value zone w
               (records, Some err) Hz Hf).
    + apply (netcup_Present_answers h d domainName token fqdn value w
               (records, Some err) Hf).
Qed.

Lemma Present_zone_fetch_fails_witness :
  (let h := RefHostingde.scripted
              {| RefHostingde.zoneAnswer := Err Sample.timeout;
                 RefHostingde.updateAnswer := Sample.hostingde_answer [] |} in
   let o := run h (Hostingde.Present Sample.hostingde ∅
                     "example.com" "token" Sample.fqdn "abc") tt in
   Hostingde.fetches (trace o) = [Err Sample.timeout]
   /\ result o = (Some (Errorf "hostingde: " Sample.timeout), ∅)
   /\ Hostingde.submissions (trace o) = [])
  /\ (let s := Sample.netcup_server [] 1 (Some Sample.timeout) None in
      let o := run RefNetcup.handle
                 (Netcup.Present Sample.netcup "example.com" "token" Sample.fqdn "abc") s in
      Netcup.resolutions (trace o) = [Ok "example.com."]
      /\ Netcup.fetches (trace o) = [([], Some Sample.timeout)]
      /\ Netcup.submissions (trace o) = [[Sample.netcup_record 0 "abc" 300]]
      /\ exists answer,
          Netcup.update_answers (trace o) = [answer]
          /\ result o
             = match answer with
               | Some cause => Some (Errorf "netcup: failed to add TXT-Record: " cause)
               | None => None
               end).
Proof.
  destruct Present_zone_fetch_fails as [H1 H2]. split.
  - intros h o. split; [reflexivity |].
    exact (H1 unit h Sample.hostingde ∅ "example.com" "token" Sample.fqdn "abc" tt
             Sample.timeout eq_refl).
  - intros s o. split; [reflexivity |]. split; [reflexivity |].
    exact (H2 _ RefNetcup.handle Sample.netcup "example.com" "token" Sample.fqdn "abc"
             "example.com." s [] Sample.timeout eq_refl eq_refl).
Defined.

(** C6, as the spec words it, fails for netcup: the fetch fails, and
    [Present] still submits the new record and returns nil. *)
Lemma netcup_Present_submits_after_failed_fetch :
  let s := Sample.netcup_server [] 1 (Some Sample.timeout) None in
  let o := run RefNetcup.handle
             (Netcup.Present Sample.netcup "example.com" "token" Sample.fqdn "abc") s in
  Netcup.fetches (trace o) = [([], Some Sample.timeout)]
  /\ result o = None
  /\ Netcup.submissions (trace o) = [[Sample.netcup_record 0 "abc" 300]]
  /\ ~ (result o <> None /\ Netcup.submissions (trace o) = []).
Proof.
  intros s o. split; [reflexivity |]. split; [reflexivity |].
  split; [reflexivity |]. intros [Hr _]. apply Hr. reflexivity.
Qed.

(** ** The record-id maps *)

(** C7: after a successful [Present] of hosting.de the map holds a
    (non-empty) id under the name; after a successful [CleanUp] of
    hosting.de, and of checkdomain, the map holds nothing under the name. *)
Theorem cache_after_Present_and_CleanUp :
  (forall (W : Type) (h : forall X, Hostingde.api X -> W -> X * W)
          (d : Hostingde.Config) (recordIDs : gmap string string)
          (domain token fqdn value : string) (w : W),
      (result (run h (Hostingde.Present d recordIDs domain token fqdn value) w)).1
        = None ->
      exists id,
        (result (run h (Hostingde.Present d recordIDs domain token fqdn value) w)).2
          !! fqdn = Some id
        /\ id <> EmptyString)
  /\ (forall (W : Type) (h : forall X, Hostingde.api X -> W -> X * W)
             (d : Hostingde.Config) (recordIDs : gmap string string)
             (domain token fqdn value : string) (w : W),
      (result (run h (Hostingde.CleanUp d recordIDs domain token fqdn value) w)).1
        = None ->
      (result (run h (Hostingde.CleanUp d recordIDs domain token fqdn value) w)).2
        !! fqdn = None)
  /\ (forall (W : Type) (m : Checkdomain.methods W)
             (domain token fqdn value : string) (d : Checkdomain.DNSProvider W),
      (Checkdomain.CleanUp m domain token fqdn value d).1 = None ->
      Checkdomain.domainIDMapping (Checkdomain.CleanUp m domain token fqdn value d).2
        !! fqdn = None).
Proof.
  split; [| split].
  - intros W h d recordIDs domain token fqdn value w.
    destruct (result _) as [r recordIDs'] eqn:Hr. cbn. intros ->.
    apply (hostingde_Present_cached h d recordIDs recordIDs' domain token fqdn value w).
    exact Hr.
  - intros W h d recordIDs domain token fqdn value w.
    destruct (result _) as [r recordIDs'] eqn:Hr. cbn. intros ->.
    apply (hostingde_CleanUp_uncached h d recordIDs recordIDs' domain token fqdn value w).
    exact Hr.
  - intros W m domain token fqdn value d.
    destruct (Checkdomain.CleanUp _ _ _ _ _ _) as [r d'] eqn:Hr. cbn. intros ->.
    apply (checkdomain_CleanUp_uncached m domain token fqdn value d d'). exact Hr.
Qed.

Lemma cache_after_Present_and_CleanUp_witness :
  (let h := RefHostingde.scripted
              {| RefHostingde.zoneAnswer := Ok Sample.hostingde_zone;
                 RefHostingde.updateAnswer :=
                   Sample.hostingde_answer
                     [Sample.hostingde_record "record-7" (quoted "abc")] |} in
   let o := run h (Hostingde.Present Sample.hostingde ∅
                     "example.com" "token" Sample.fqdn "abc") tt in
   (result o).1 = None
   /\ exists id, (result o).2 !! Sample.fqdn = Some id /\ id <> EmptyString)
  /\ (let h := RefHostingde.scripted
                 {| RefHostingde.zoneAnswer := Ok Sample.hostingde_zone;
                    RefHostingde.updateAnswer := Sample.hostingde_answer [] |} in
      let o := run h (Hostingde.CleanUp Sample.hostingde {[ Sample.fqdn := "record-7" ]}
                        "example.com" "token" Sample.fqdn "abc") tt in
      (result o).1 = None /\ (result o).2 !! Sample.fqdn = None)
  /\ (let o := Checkdomain.CleanUp Sample.checkdomain_methods
                 "example.com" "token" Sample.fqdn "abc"
                 (Sample.checkdomain_provider {[ Sample.fqdn := 42 ]}) in
      o.1 = None /\ Checkdomain.domainIDMapping o.2 !! Sample.fqdn = None).
Proof.
  destruct cache_after_Present_and_CleanUp as (H1 & H2 & H3).
  split; [| split].
  - intros h o. assert ((result o).1 = None) as Hs by reflexivity.
    split; [exact Hs |].
    exact (H1 unit h Sample.hostingde ∅ "example.com" "token" Sample.fqdn "abc" tt
             Hs).
  - intros h o. assert ((result o).1 = None) as Hs by reflexivity.
    split; [exact Hs |].
    exact (H2 unit h Sample.hostingde {[ Sample.fqdn := "record-7" ]}
             "example.com" "token" Sample.fqdn "abc" tt Hs).
  - intros o. assert (o.1 = None) as Hs by reflexivity.
    split; [exact Hs |].
    exact (H3 unit Sample.checkdomain_methods "example.com" "token" Sample.fqdn "abc"
             (Sample.checkdomain_provider {[ Sample.fqdn := 42 ]}) Hs).
Defined.

(** * Further properties of the adapters *)

(** ** Lists and strings *)

Lemma filter_filter {A : Type} (f g : A -> bool) (l : list A) :
  List.filter f (List.filter g l) = List.filter (fun a => g a && f a) l.
Proof.
  induction l as [| a l IH]; simpl; [reflexivity |].
  destruct (g a); simpl; [destruct (f a) |]; rewrite IH; reflexivity.
Qed.

Lemma index_None {A : Type} (l : list A) (i : Z) :
  index l i = None <-> ~ (0 <= i < Z.of_nat (length l)).
Proof.
  unfold index. case_bool_decide as Hi.
  - rewrite lookup_ge_None. lia.
  - split; [lia | reflexivity].
Qed.

Lemma strip_prefix_refl (p : string) : strip_prefix p p = Some EmptyString.
Proof.
  induction p as [| a p IH]; simpl; [reflexivity |].
  rewrite Ascii.eqb_refl. exact IH.
Qed.

Lemma replace_first_eq (s old new : string) :
  replace_first s old new
  = match strip_prefix old s with
    | Some rest => new +:+ rest
    | None =>
        match s with
        | EmptyString => EmptyString
        | String c s' => String c (replace_first s' old new)
        end
    end.
Proof. destruct s; reflexivity. Qed.

(** Removing ["." + zone] from [label + "." + zone] leaves the label, when
    the label holds no dot. *)
Lemma replace_first_label (label zone : string) :
  dotless label = true ->
  replace_first (label +:+ String (Ascii.ascii_of_nat 46) zone)
    (String (Ascii.ascii_of_nat 46) zone) EmptyString = label.
Proof.
  induction label as [| c label IH]; intros Hd.
  - change (EmptyString +:+ String (Ascii.ascii_of_nat 46) zone)
      with (String (Ascii.ascii_of_nat 46) zone).
    rewrite replace_first_eq, strip_prefix_refl. reflexivity.
  - simpl in Hd. apply andb_prop in Hd as [Hc Hd].
    apply negb_true_iff in Hc.
    change (String c label +:+ String (Ascii.ascii_of_nat 46) zone)
      with (String c (label +:+ String (Ascii.ascii_of_nat 46) zone)).
    rewrite replace_first_eq. cbn [strip_prefix].
    rewrite Ascii.eqb_sym, Hc. rewrite (IH Hd). reflexivity.
Qed.

Lemma last_failure_None (answers : list (Z * option error)) (lastErr : option error) :
  Inwx.last_failure answers lastErr = None
  <-> lastErr = None /\ Inwx.failures answers = [].
Proof.
  revert lastErr. induction answers as [| [recID [e |]] rest IH]; intros lastErr; simpl.
  - tauto.
  - rewrite IH. unfold Inwx.failures. simpl.
    split; [intros [? _]; discriminate | intros [_ ?]; discriminate].
  - rewrite IH. unfold Inwx.failures. simpl. tauto.
Qed.

(** ** inwx *)

Section InwxMore.
Import Inwx.
Context {W : Type} (h : forall X, api X -> W -> X * W).

Lemma inwx_delete_records_only_deletes (records : list NameserverRecord)
    (lastErr : option error) (w : W) :
  creations (trace (run h (delete_records records lastErr) w)) = [].
Proof.
  revert lastErr w. induction records as [| record rest IH]; intros lastErr w.
  - reflexivity.
  - cbn [delete_records]. unfold call. answer.
    destruct x as [e |]; apply IH.
Qed.

Lemma inwx_delete_records_named (records : list NameserverRecord)
    (lastErr : option error) (w : W) (err : error) :
  (forall e, lastErr = Some e -> named "inwx: " e = true) ->
  result (run h (delete_records records lastErr) w) = Some err ->
  named "inwx: " err = true.
Proof.
  revert lastErr w. induction records as [| record rest IH]; intros lastErr w Hl.
  - cbn. exact (Hl err).
  - cbn [delete_records]. unfold call. answer. destruct x as [e |].
    + apply IH. intros e' [= <-]. reflexivity.
    + apply IH. exact Hl.
Qed.

(** X1: when no login succeeded (the zone lookup or the login itself
    failed), inwx's [Present] and [CleanUp] return an error and have called
    neither [Logout] nor any record operation. *)
Theorem inwx_no_session_no_calls (d : Config) (domain token fqdn value : string)
    (w : W) :
  (existsb Login_ok (trace (run h (Present d domain token fqdn value) w)) = false ->
   result (run h (Present d domain token fqdn value) w) <> None
   /\ List.filter is_Logout (trace (run h (Present d domain token fqdn value) w)) = []
   /\ creations (trace (run h (Present d domain token fqdn value) w)) = [])
  /\ (existsb Login_ok (trace (run h (CleanUp d domain token fqdn value) w)) = false ->
      result (run h (CleanUp d domain token fqdn value) w) <> None
      /\ List.filter is_Logout (trace (run h (CleanUp d domain token fqdn value) w)) = []
      /\ listings (trace (run h (CleanUp d domain token fqdn value) w)) = []
      /\ deletions (trace (run h (CleanUp d domain token fqdn value) w)) = []).
Proof.
  split.
  - unfold Present, call. answer. destruct x as [authZone | err].
    + answer. destruct x as [err |]; [| cbn; discriminate].
      intros _. cbn. repeat split. discriminate.
    + intros _. cbn. repeat split. discriminate.
  - unfold CleanUp, call. answer. destruct x as [authZone | err].
    + answer. destruct x as [err |]; [| cbn; discriminate].
      intros _. cbn. repeat split. discriminate.
    + intros _. cbn. repeat split. discriminate.
Qed.

(** X4: once inwx's [Present] has called [CreateRecord], the request
    carries the unqualified name, type TXT, the value and the configured
    TTL, and [Present] returns nil exactly when the call succeeded or
    answered with an error response whose message is "Object exists"; any
    other answer is returned, wrapped. *)
Theorem inwx_Present_nil_iff (d : Config) (domain token fqdn value : string) (w : W)
    (request : NameserverRecordRequest) (answer : res Z) :
  creations (trace (run h (Present d domain token fqdn value) w)) = [(request, answer)] ->
  (req_Name request = UnFqdn fqdn /\ req_Type request = "TXT"
   /\ req_Content request = value /\ req_TTL request = TTL d)
  /\ (result (run h (Present d domain token fqdn value) w) = None
      <-> (exists recID, answer = Ok recID)
          \/ (exists code, answer = Err (ErrorResponse code "Object exists")))
  /\ (forall err, answer = Err err ->
      result (run h (Present d domain token fqdn value) w) <> None ->
      result (run h (Present d domain token fqdn value) w) = Some (Errorf "inwx: " err)).
Proof.
  unfold Present, call. answer. destruct x as [authZone | err]; [| cbn; discriminate].
  answer. destruct x as [err |]; [cbn; discriminate |].
  rewrite inwx_defer_Logout. cbn [result trace].
  answer. destruct x as [recID | err].
  - cbn. intros [= <- <-]. split; [auto |]. split.
    + split; [eauto | reflexivity].
    + discriminate.
  - destruct err as [code Message | msg | prefix cause].
    + case_bool_decide as HM; cbn; intros [= <- <-]; (split; [auto |]); split.
      * subst Message. split; [eauto | reflexivity].
      * intros err [= <-]. congruence.
      * split; [discriminate |]. intros [[recID [=]] | [code' [= _ ->]]]. congruence.
      * intros err [= <-] _. reflexivity.
    + cbn. intros [= <- <-]. split; [auto |]. split.
      * split; [discriminate |]. intros [[recID [=]] | [code [=]]].
      * intros err [= <-] _. reflexivity.
    + cbn. intros [= <- <-]. split; [auto |]. split.
      * split; [discriminate |]. intros [[recID [=]] | [code [=]]].
      * intros err [= <-] _. reflexivity.
Qed.

(** X5: once inwx's [CleanUp] has listed the records (by unqualified
    name and type TXT), it returns nil exactly when no deletion failed, so
    also when nothing was listed; when the listing itself fails, that error
    is returned, wrapped, and nothing is deleted. *)
Theorem inwx_CleanUp_nil_iff (d : Config) (domain token fqdn value : string) (w : W)
    (request : NameserverInfoRequest) (answer : res (list NameserverRecord)) :
  listings (trace (run h (CleanUp d domain token fqdn value) w)) = [(request, answer)] ->
  (info_Name request = UnFqdn fqdn /\ info_Type request = "TXT")
  /\ match answer with
     | Ok records =>
         (result (run h (CleanUp d domain token fqdn value) w) = None
          <-> failures (deletions (trace (run h (CleanUp d domain token fqdn value) w)))
              = [])
         /\ (records = [] ->
             deletions (trace (run h (CleanUp d domain token fqdn value) w)) = [])
     | Err err =>
         result (run h (CleanUp d domain token fqdn value) w) = Some (Errorf "inwx: " err)
         /\ deletions (trace (run h (CleanUp d domain token fqdn value) w)) = []
     end.
Proof.
  unfold CleanUp, call. answer. destruct x as [authZone | err]; [| cbn; discriminate].
  answer. destruct x as [err |]; [cbn; discriminate |].
  rewrite inwx_defer_Logout. cbn [result trace].
  answer. destruct x as [found | err].
  - destruct (inwx_delete_records_all h found None w2) as (Hids & Hres & Hl).
    unfold listings, deletions in *. cbn -[run]. rewrite !omap_app.
    cbn -[run]. rewrite !app_nil_r, Hl. intros [= <- <-].
    split; [auto |]. split.
    + rewrite Hres. rewrite last_failure_None. tauto.
    + intros ->. reflexivity.
  - cbn. intros [= <- <-]. auto.
Qed.

(** X6: inwx's [Present] never lists or deletes records and creates at
    most one; inwx's [CleanUp] never creates a record. *)
Theorem inwx_Present_creates_CleanUp_deletes (d : Config)
    (domain token fqdn value : string) (w : W) :
  listings (trace (run h (Present d domain token fqdn value) w)) = []
  /\ deletions (trace (run h (Present d domain token fqdn value) w)) = []
  /\ (length (creations (trace (run h (Present d domain token fqdn value) w))) <= 1)%nat
  /\ creations (trace (run h (CleanUp d domain token fqdn value) w)) = [].
Proof.
  split; [| split; [| split]].
  - unfold Present, call. answer. destruct x as [authZone | err]; [| reflexivity].
    answer. destruct x as [err |]; [reflexivity |].
    rewrite inwx_defer_Logout. cbn [trace]. answer.
    destruct x as [recID | [code Message | msg | prefix cause]];
      [| case_bool_decide | |]; reflexivity.
  - unfold Present, call. answer. destruct x as [authZone | err]; [| reflexivity].
    answer. destruct x as [err |]; [reflexivity |].
    rewrite inwx_defer_Logout. cbn [trace]. answer.
    destruct x as [recID | [code Message | msg | prefix cause]];
      [| case_bool_decide | |]; reflexivity.
  - unfold Present, call. answer. destruct x as [authZone | err]; [| cbn; lia].
    answer. destruct x as [err |]; [cbn; lia |].
    rewrite inwx_defer_Logout. cbn [trace]. answer.
    destruct x as [recID | [code Message | msg | prefix cause]];
      [| case_bool_decide | |]; cbn; lia.
  - unfold CleanUp, call. answer. destruct x as [authZone | err]; [| reflexivity].
    answer. destruct x as [err |]; [reflexivity |].
    rewrite inwx_defer_Logout. cbn [trace]. answer.
    destruct x as [found | err]; [| reflexivity].
    unfold creations. cbn -[run]. rewrite omap_app. cbn -[run].
    rewrite app_nil_r. apply inwx_delete_records_only_deletes.
Qed.
End InwxMore.

Lemma inwx_no_session_no_calls_witness :
  let o := run Sample.inwx_login_refused
             (Inwx.Present Sample.inwx "example.com" "token" Sample.fqdn "abc") tt in
  existsb Inwx.Login_ok (trace o) = false
  /\ result o = Some (Errorf "inwx: " (ErrorResponse 2200 "Authentication error"))
  /\ List.filter Inwx.is_Logout (trace o) = []
  /\ Inwx.creations (trace o) = [].
Proof.
  intros o.
  destruct (proj1 (inwx_no_session_no_calls Sample.inwx_login_refused Sample.inwx
                     "example.com" "token" Sample.fqdn "abc" tt) eq_refl)
    as (_ & Hl & Hc).
  split; [reflexivity |]. split; [reflexivity |]. split; [exact Hl | exact Hc].
Defined.

Lemma inwx_Present_nil_iff_witness :
  let s := Sample.inwx_server [Sample.inwx_record 1 "abc"] 2 [] None in
  let o := run RefInwx.handle
             (Inwx.Present Sample.inwx "example.com" "token" Sample.fqdn "abc") s in
  Inwx.creations (trace o)
    = [(RefInwx.challenge Sample.inwx s Sample.fqdn "abc",
        Err (ErrorResponse 2302 "Object exists"))]
  /\ Inwx.req_Name (RefInwx.challenge Sample.inwx s Sample.fqdn "abc")
     = UnFqdn Sample.fqdn
  /\ result o = None.
Proof.
  intros s o. split; [reflexivity |].
  destruct (inwx_Present_nil_iff RefInwx.handle Sample.inwx
              "example.com" "token" Sample.fqdn "abc" s
              (RefInwx.challenge Sample.inwx s Sample.fqdn "abc")
              (Err (ErrorResponse 2302 "Object exists")) eq_refl)
    as ((Hname & _) & Hiff & _).
  split; [exact Hname |]. apply Hiff. right. exists 2302. reflexivity.
Defined.

Lemma inwx_CleanUp_nil_iff_witness :
  let s := Sample.inwx_server [] 1 [] None in
  let o := run RefInwx.handle
             (Inwx.CleanUp Sample.inwx "example.com" "token" Sample.fqdn "abc") s in
  Inwx.listings (trace o)
    = [({| Inwx.info_Domain := "example.com";
           Inwx.info_Name := "_acme-challenge.example.com";
           Inwx.info_Type := "TXT" |}, Ok [])]
  /\ (result o = None <-> Inwx.failures (Inwx.deletions (trace o)) = [])
  /\ Inwx.deletions (trace o) = [].
Proof.
  intros s o. split; [reflexivity |].
  destruct (inwx_CleanUp_nil_iff RefInwx.handle Sample.inwx
              "example.com" "token" Sample.fqdn "abc" s
              {| Inwx.info_Domain := "example.com";
                 Inwx.info_Name := "_acme-challenge.example.com";
                 Inwx.info_Type := "TXT" |} (Ok []) eq_refl) as (_ & Hiff & Hnone).
  split; [exact Hiff | exact (Hnone eq_refl)].
Defined.
(** ** netcup *)

Section NetcupMore.
Import Netcup.
Context {W : Type} (h : forall X, api X -> W -> X * W).

(** X2: when no login succeeded, netcup's [Present] and [CleanUp] return
    an error and have called neither [Logout] nor [GetDNSRecords] nor
    [UpdateDNSRecord]. *)
Theorem netcup_no_session_no_calls
    (idx : list DNSRecord -> DNSRecord -> Z * option error) (d : Config)
    (domainName token fqdn value : string) (w : W) :
  (existsb Login_ok (trace (run h (Present d domainName token fqdn value) w)) = false ->
   result (run h (Present d domainName token fqdn value) w) <> None
   /\ List.filter is_Logout (trace (run h (Present d domainName token fqdn value) w)) = []
   /\ fetches (trace (run h (Present d domainName token fqdn value) w)) = []
   /\ submissions (trace (run h (Present d domainName token fqdn value) w)) = [])
  /\ (existsb Login_ok
        (trace (run h (CleanUp idx d domainName token fqdn value) w)) = false ->
      (exists err, result (run h (CleanUp idx d domainName token fqdn value) w)
                   = Returned (Some err))
      /\ List.filter is_Logout
           (trace (run h (CleanUp idx d domainName token fqdn value) w)) = []
      /\ fetches (trace (run h (CleanUp idx d domainName token fqdn value) w)) = []
      /\ submissions (trace (run h (CleanUp idx d domainName token fqdn value) w)) = []).
Proof.
  split.
  - unfold Present, call. answer. destruct x as [zone | err].
    + answer. destruct x as [sessionID | err]; [cbn; discriminate |].
      intros _. cbn. repeat split. discriminate.
    + intros _. cbn. repeat split. discriminate.
  - unfold CleanUp, call. answer. destruct x as [zone | err].
    + answer. destruct x as [sessionID | err]; [cbn; discriminate |].
      intros _. cbn. repeat split. eauto.
    + intros _. cbn. repeat split. eauto.
Qed.

(** X10: once netcup's [Present] has fetched the records, its result is
    decided by the one [UpdateDNSRecord] call alone: nil when that call
    answered nil, its error (wrapped) otherwise, whatever the fetch
    answered. *)
Theorem netcup_Present_result (d : Config) (domainName token fqdn value : string)
    (w : W) (fetched : list DNSRecord * option error) :
  fetches (trace (run h (Present d domainName token fqdn value) w)) = [fetched] ->
  exists answer,
    update_answers (trace (run h (Present d domainName token fqdn value) w)) = [answer]
    /\ result (run h (Present d domainName token fqdn value) w)
       = match answer with
         | Some err => Some (Errorf "netcup: failed to add TXT-Record: " err)
         | None => None
         end.
Proof.
  unfold Present, call. answer. destruct x as [zone | err]; [| cbn; discriminate].
  answer. destruct x as [sessionID | err]; [| cbn; discriminate].
  rewrite netcup_defer_Logout. cbn [result trace].
  answer. answer. intros _. exists x0. destruct x0; cbn; auto.
Qed.

(** X9: for a challenge name made of a dot-free label, a dot and the
    zone that [FindZoneByFqdn] answered, the record netcup's [Present]
    appends has the label as its hostname (with type TXT, the value, the
    configured TTL and no id). *)
Theorem netcup_Present_hostname (d : Config)
    (domainName token fqdn value zone label : string) (w : W)
    (fetched : list DNSRecord * option error) :
  fqdn = label +:+ "." +:+ zone ->
  dotless label = true ->
  resolutions (trace (run h (Present d domainName token fqdn value) w)) = [Ok zone] ->
  fetches (trace (run h (Present d domainName token fqdn value) w)) = [fetched] ->
  submissions (trace (run h (Present d domainName token fqdn value) w))
  = [fetched.1
     ++ [ {| ID := 0; Hostname := label; RecordType := "TXT";
             Destination := value; DeleteRecord := false; rec_TTL := TTL d |} ]].
Proof.
  intros -> Hd Hz Hf.
  rewrite (netcup_Present_submits h d domainName token _ value zone w fetched Hz Hf).
  change ("." +:+ zone) with (String (Ascii.ascii_of_nat 46) zone).
  rewrite (replace_first_label label zone Hd). reflexivity.
Qed.

(** X7: after a successful fetch, netcup's [CleanUp] panics exactly when
    [GetDNSRecordIdx] answers, without an error, an index outside the
    fetched records; it has then submitted nothing, and the deferred logout
    has still run, once and last. *)
Theorem netcup_CleanUp_panics_iff
    (idx : list DNSRecord -> DNSRecord -> Z * option error) (d : Config)
    (domainName token fqdn value zone : string) (w : W) (records : list DNSRecord) :
  resolutions (trace (run h (CleanUp idx d domainName token fqdn value) w)) = [Ok zone] ->
  fetches (trace (run h (CleanUp idx d domainName token fqdn value) w))
    = [(records, None)] ->
  (result (run h (CleanUp idx d domainName token fqdn value) w) = Panicked
   <-> exists i, idx records (probe fqdn zone value) = (i, None)
                 /\ ~ (0 <= i < Z.of_nat (length records)))
  /\ (result (run h (CleanUp idx d domainName token fqdn value) w) = Panicked ->
      submissions (trace (run h (CleanUp idx d domainName token fqdn value) w)) = []
      /\ logout_once is_Logout
           (trace (run h (CleanUp idx d domainName token fqdn value) w))).
Proof.
  intros Hz Hf.
  assert (logout_once is_Logout
            (trace (run h (CleanUp idx d domainName token fqdn value) w))) as Hlog.
  { apply netcup_CleanUp_logout. revert Hf. unfold CleanUp, call.
    answer. destruct x as [z | err]; [| cbn; discriminate].
    answer. destruct x as [sessionID | err]; [| cbn; discriminate]. reflexivity. }
  revert Hz Hf Hlog. unfold CleanUp, call.
  answer. destruct x as [z | err]; [| cbn; discriminate].
  answer. destruct x as [sessionID | err]; [| cbn; discriminate].
  rewrite netcup_defer_Logout. cbn [result trace].
  answer. destruct x as [recs [err |]]; cbn [fst snd].
  { cbn. discriminate. }
  fold (probe fqdn z value).
  destruct (idx recs (probe fqdn z value)) as [i [err |]] eqn:Hi.
  { cbn. intros [= ->] [= ->] Hlog. rewrite Hi.
    split; [split; [discriminate | intros (j & [=] & _)] | discriminate]. }
  destruct (index recs i) as [found |] eqn:Hfound.
  - answer. destruct x; cbn; intros [= ->] [= ->] Hlog; rewrite Hi;
      (split; [split; [discriminate |] | discriminate]);
      intros (j & [= <-] & Hj); apply index_None in Hj; congruence.
  - cbn. intros [= ->] [= ->] Hlog. rewrite Hi. split; [| auto].
    split; [| reflexivity]. intros _. exists i. split; [reflexivity |].
    apply index_None. exact Hfound.
Qed.

(** X8: when netcup's [CleanUp] returns nil, it has fetched the records
    without error and submitted exactly one update holding exactly one
    record: the fetched record at the index [GetDNSRecordIdx] answered,
    with its deletion mark set and every other field, the id among them,
    as fetched. *)
Theorem netcup_CleanUp_submits_one
    (idx : list DNSRecord -> DNSRecord -> Z * option error) (d : Config)
    (domainName token fqdn value : string) (w : W) :
  result (run h (CleanUp idx d domainName token fqdn value) w) = Returned None ->
  exists zone records i found,
    resolutions (trace (run h (CleanUp idx d domainName token fqdn value) w)) = [Ok zone]
    /\ fetches (trace (run h (CleanUp idx d domainName token fqdn value) w))
       = [(records, None)]
    /\ idx records (probe fqdn zone value) = (i, None)
    /\ index records i = Some found
    /\ submissions (trace (run h (CleanUp idx d domainName token fqdn value) w))
       = [[ {| ID := ID found; Hostname := Hostname found;
               RecordType := RecordType found; Destination := Destination found;
               DeleteRecord := true; rec_TTL := rec_TTL found |} ]].
Proof.
  unfold CleanUp, call.
  answer. destruct x as [z | err]; [| cbn; discriminate].
  answer. destruct x as [sessionID | err]; [| cbn; discriminate].
  rewrite netcup_defer_Logout. cbn [result trace].
  answer. destruct x as [recs [err |]]; cbn [fst snd]; [cbn; discriminate |].
  fold (probe fqdn z value).
  destruct (idx recs (probe fqdn z value)) as [i [err |]] eqn:Hi; [cbn; discriminate |].
  destruct (index recs i) as [found |] eqn:Hfound; [| cbn; discriminate].
  answer. destruct x; cbn; [discriminate |]. intros _.
  exists z, recs, i, found. auto.
Qed.
End NetcupMore.

Lemma netcup_no_session_no_calls_witness :
  let o := run Sample.netcup_login_refused
             (Netcup.CleanUp Netcup.GetDNSRecordIdx Sample.netcup
                "example.com" "token" Sample.fqdn "abc") tt in
  existsb Netcup.Login_ok (trace o) = false
  /\ result o = Returned (Some (Errorf "netcup: " (ErrorString "login failed")))
  /\ List.filter Netcup.is_Logout (trace o) = []
  /\ Netcup.fetches (trace o) = []
  /\ Netcup.submissions (trace o) = [].
Proof.
  intros o.
  destruct (proj2 (netcup_no_session_no_calls Sample.netcup_login_refused
                     Netcup.GetDNSRecordIdx Sample.netcup
                     "example.com" "token" Sample.fqdn "abc" tt) eq_refl)
    as (_ & Hl & Hf & Hs).
  split; [reflexivity |]. split; [reflexivity |]. auto.
Defined.

Lemma netcup_Present_result_witness :
  let s := Sample.netcup_server [] 1 (Some Sample.timeout) (Some Sample.timeout) in
  let o := run RefNetcup.handle
             (Netcup.Present Sample.netcup "example.com" "token" Sample.fqdn "abc") s in
  Netcup.fetches (trace o) = [([], Some Sample.timeout)]
  /\ exists answer,
       Netcup.update_answers (trace o) = [answer]
       /\ result o
          = match answer with
            | Some err => Some (Errorf "netcup: failed to add TXT-Record: " err)
            | None => None
            end.
Proof.
  intros s o. split; [reflexivity |].
  exact (netcup_Present_result RefNetcup.handle Sample.netcup
           "example.com" "token" Sample.fqdn "abc" s ([], Some Sample.timeout) eq_refl).
Defined.

Lemma netcup_Present_hostname_witness :
  let s := Sample.netcup_server [Sample.netcup_record 1 "xyz" 600] 2 None None in
  let o := run RefNetcup.handle
             (Netcup.Present Sample.netcup "example.com" "token" Sample.fqdn "abc") s in
  Sample.fqdn = "_acme-challenge" +:+ "." +:+ "example.com."
  /\ dotless "_acme-challenge" = true
  /\ Netcup.resolutions (trace o) = [Ok "example.com."]
  /\ Netcup.fetches (trace o) = [([Sample.netcup_record 1 "xyz" 600], None)]
  /\ Netcup.submissions (trace o)
     = [[Sample.netcup_record 1 "xyz" 600; Sample.netcup_record 0 "abc" 300]].
Proof.
  intros s o. split; [reflexivity |]. split; [reflexivity |].
  split; [reflexivity |]. split; [reflexivity |].
  exact (netcup_Present_hostname RefNetcup.handle Sample.netcup
           "example.com" "token" Sample.fqdn "abc" "example.com." "_acme-challenge" s
           ([Sample.netcup_record 1 "xyz" 600], None)
           eq_refl eq_refl eq_refl eq_refl).
Defined.

Lemma netcup_CleanUp_panics_iff_witness :
  let s := Sample.netcup_server [Sample.netcup_record 1 "abc" 300] 2 None None in
  let o := run RefNetcup.handle
             (Netcup.CleanUp Sample.index_past_end Sample.netcup
                "example.com" "token" Sample.fqdn "abc") s in
  Netcup.resolutions (trace o) = [Ok "example.com."]
  /\ Netcup.fetches (trace o) = [([Sample.netcup_record 1 "abc" 300], None)]
  /\ result o = Panicked
  /\ Netcup.submissions (trace o) = []
  /\ logout_once Netcup.is_Logout (trace o).
Proof.
  intros s o.
  destruct (netcup_CleanUp_panics_iff RefNetcup.handle Sample.index_past_end
              Sample.netcup "example.com" "token" Sample.fqdn "abc" "example.com." s
              [Sample.netcup_record 1 "abc" 300] eq_refl eq_refl) as [Hiff Hthen].
  assert (result o = Panicked) as Hp.
  { apply Hiff. exists 1. split; [reflexivity | vm_compute; intros [_ Hlt]; discriminate Hlt]. }
  split; [reflexivity |]. split; [reflexivity |]. split; [exact Hp |].
  exact (Hthen Hp).
Defined.

Lemma netcup_CleanUp_submits_one_witness :
  let s := Sample.netcup_server
             [Sample.netcup_record 1 "xyz" 600; Sample.netcup_record 2 "abc" 300]
             3 None None in
  let o := run RefNetcup.handle
             (Netcup.CleanUp Netcup.GetDNSRecordIdx Sample.netcup
                "example.com" "token" Sample.fqdn "abc") s in
  result o = Returned None
  /\ Netcup.submissions (trace o)
     = [[Netcup.mark_deleted (Sample.netcup_record 2 "abc" 300)]]
  /\ RefNetcup.zone (final o) = [Sample.netcup_record 1 "xyz" 600].
Proof.
  intros s o. assert (result o = Returned None) as Hr by reflexivity.
  destruct (netcup_CleanUp_submits_one RefNetcup.handle Netcup.GetDNSRecordIdx
              Sample.netcup "example.com" "token" Sample.fqdn "abc" s Hr)
    as (zone & records & i & found & _).
  split; [exact Hr |]. split; reflexivity.
Defined.
(** ** hosting.de *)

Section HostingdeMore.
Import Hostingde.
Context {W : Type} (h : forall X, api X -> W -> X * W).

Lemma store_ids_get (records : list DNSRecord) (fqdn value : string)
    (recordIDs : gmap string string) :
  get (store_ids records fqdn value recordIDs) fqdn
  = match last_confirming fqdn value records with
    | Some record => ID record
    | None => get recordIDs fqdn
    end.
Proof.
  unfold last_confirming. revert recordIDs.
  induction records as [| record rest IH]; intros recordIDs; simpl.
  - reflexivity.
  - rewrite IH. destruct (confirms fqdn value record) eqn:Hc.
    + rewrite last_cons. destruct (last (List.filter _ rest)); [reflexivity |].
      unfold get. rewrite lookup_insert_eq. reflexivity.
    + reflexivity.
Qed.

(** X11: after a successful update, the map entry of hosting.de's
    [Present] for the name is the id of the last record of the response
    with the name and the quoted value, or the earlier entry when there is
    no such record; [Present] returns nil exactly when that entry is not
    empty. *)
Theorem hostingde_Present_last_confirming (d : Config)
    (recordIDs : gmap string string) (domain token fqdn value : string)
    (w : W) (resp : ZoneUpdateResponse) :
  updates (trace (run h (Present d recordIDs domain token fqdn value) w)) = [Ok resp] ->
  get (result (run h (Present d recordIDs domain token fqdn value) w)).2 fqdn
  = match last_confirming fqdn value (Records (Response resp)) with
    | Some record => ID record
    | None => get recordIDs fqdn
    end
  /\ ((result (run h (Present d recordIDs domain token fqdn value) w)).1 = None
      <-> get (result (run h (Present d recordIDs domain token fqdn value) w)).2 fqdn
          <> EmptyString).
Proof.
  unfold Present, call.
  answer. destruct x as [zoneConfig | err]; [| cbn; discriminate].
  answer. destruct x as [resp' | err]; [| cbn; discriminate].
  intros Hup. assert (resp' = resp) as -> by (cbn in Hup; congruence). clear Hup.
  case_bool_decide as Hget; cbn -[store_ids get last_confirming];
    rewrite store_ids_get in *.
  - split; [reflexivity |]. split; [discriminate | congruence].
  - split; [reflexivity |]. split; [auto | reflexivity].
Qed.

(** X12: hosting.de's [Present] and [CleanUp] for one name leave the map
    entry of every other name as it was, whatever the provider answers. *)
Theorem hostingde_other_names_untouched (d : Config)
    (recordIDs : gmap string string) (domain token fqdn value other : string) (w : W) :
  other <> fqdn ->
  (result (run h (Present d recordIDs domain token fqdn value) w)).2 !! other
    = recordIDs !! other
  /\ (result (run h (CleanUp d recordIDs domain token fqdn value) w)).2 !! other
     = recordIDs !! other.
Proof.
  intros Hne. split.
  - unfold Present, call.
    answer. destruct x as [zoneConfig | err]; [| reflexivity].
    answer. destruct x as [resp | err]; [| reflexivity].
    case_bool_decide; cbn -[store_ids]; apply store_ids_other; exact Hne.
  - unfold CleanUp, call.
    answer. destruct x as [zoneConfig | err]; [| reflexivity].
    answer. destruct x as [resp | err]; cbn;
      apply lookup_delete_ne; congruence.
Qed.

(** X13: hosting.de's [CleanUp] removes the map entry once the zone was
    fetched, before the update is submitted: the entry is gone whether the
    update then succeeds or fails.  When the fetch fails, the map is
    unchanged and nothing is submitted. *)
Theorem hostingde_CleanUp_forgets_before_update (d : Config)
    (recordIDs : gmap string string) (domain token fqdn value : string) (w : W)
    (fetched : res ZoneConfig) :
  fetches (trace (run h (CleanUp d recordIDs domain token fqdn value) w)) = [fetched] ->
  match fetched with
  | Ok _ =>
      (result (run h (CleanUp d recordIDs domain token fqdn value) w)).2
        = delete fqdn recordIDs
      /\ length (submissions
                   (trace (run h (CleanUp d recordIDs domain token fqdn value) w)))
         = 1%nat
  | Err err =>
      result (run h (CleanUp d recordIDs domain token fqdn value) w)
        = (Some (Errorf "hostingde: " err), recordIDs)
      /\ submissions (trace (run h (CleanUp d recordIDs domain token fqdn value) w)) = []
  end.
Proof.
  unfold CleanUp, call.
  answer. destruct x as [zoneConfig | err].
  - answer. destruct x as [resp | err]; cbn; intros [= <-]; split; reflexivity.
  - cbn. intros [= <-]. split; reflexivity.
Qed.

(** X14: the requests of hosting.de.  Both methods look the zone up by
    the configured zone name (limit 1, page 1) and submit under the
    configured API key with the zone's name set to the configured one.
    [Present] adds one TXT record with the unqualified name, the value as
    given (not quoted) and the configured TTL, and deletes nothing;
    [CleanUp] adds nothing and asks to delete one TXT record with the
    unqualified name and the value in double quotes. *)
Theorem hostingde_requests (d : Config) (recordIDs : gmap string string)
    (domain token fqdn value : string) (w : W) :
  (forall request,
      request ∈ submissions
                  (trace (run h (Present d recordIDs domain token fqdn value) w)) ->
      AuthToken request = APIKey d
      /\ zone_Name (req_ZoneConfig request) = ZoneName d
      /\ RecordsToAdd request
         = [ {| ID := EmptyString; Name := UnFqdn fqdn; Type_ := "TXT";
                Content := value; rec_TTL := TTL d |} ]
      /\ RecordsToDelete request = [])
  /\ (forall request,
      request ∈ submissions
                  (trace (run h (CleanUp d recordIDs domain token fqdn value) w)) ->
      AuthToken request = APIKey d
      /\ zone_Name (req_ZoneConfig request) = ZoneName d
      /\ RecordsToAdd request = []
      /\ RecordsToDelete request
         = [ {| ID := EmptyString; Name := UnFqdn fqdn; Type_ := "TXT";
                Content := quoted value; rec_TTL := 0 |} ])
  /\ zone_requests (trace (run h (Present d recordIDs domain token fqdn value) w))
     = [ {| find_AuthToken := APIKey d;
            find_Filter := {| Field := "zoneName"; Value := ZoneName d |};
            Limit := 1; Page := 1 |} ]
  /\ zone_requests (trace (run h (CleanUp d recordIDs domain token fqdn value) w))
     = [ {| find_AuthToken := APIKey d;
            find_Filter := {| Field := "zoneName"; Value := ZoneName d |};
            Limit := 1; Page := 1 |} ].
Proof.
  split; [| split; [| split]].
  - unfold Present, call. answer. destruct x as [zoneConfig | err].
    + answer. destruct x as [resp | err]; [case_bool_decide |]; cbn;
        intros request Hin; apply list_elem_of_singleton in Hin; subst request;
        repeat split.
    + cbn. intros request Hin. inversion Hin.
  - unfold CleanUp, call. answer. destruct x as [zoneConfig | err].
    + answer. destruct x as [resp | err]; cbn;
        intros request Hin; apply list_elem_of_singleton in Hin; subst request;
        repeat split.
    + cbn. intros request Hin. inversion Hin.
  - unfold Present, call. answer. destruct x as [zoneConfig | err]; [| reflexivity].
    answer. destruct x as [resp | err]; [case_bool_decide |]; reflexivity.
  - unfold CleanUp, call. answer. destruct x as [zoneConfig | err]; [| reflexivity].
    answer. destruct x as [resp | err]; reflexivity.
Qed.

(** X16: for a provider just built by hosting.de's
    [NewDNSProviderConfig], [Present] after a successful update returns nil
    exactly when the response holds a record with the name and the quoted
    value and the last such record has a non-empty id. *)
Theorem hostingde_new_provider_Present (c : Config) (p : DNSProvider)
    (domain token fqdn value : string) (w : W) (resp : ZoneUpdateResponse) :
  NewDNSProviderConfig (Some c) = Ok p ->
  updates (trace (run h (Present (config p) (recordIDs p) domain token fqdn value) w))
    = [Ok resp] ->
  (result (run h (Present (config p) (recordIDs p) domain token fqdn value) w)).1 = None
  <-> exists record,
        last_confirming fqdn value (Records (Response resp)) = Some record
        /\ ID record <> EmptyString.
Proof.
  unfold NewDNSProviderConfig.
  repeat case_bool_decide; try discriminate. intros [= <-]. cbn [config recordIDs].
  unfold Present, call.
  answer. destruct x as [zoneConfig | err]; [| cbn; discriminate].
  answer. destruct x as [resp' | err]; [| cbn; discriminate].
  intros Hup. assert (resp' = resp) as -> by (cbn in Hup; congruence). clear Hup.
  case_bool_decide as Hget; cbn -[store_ids get last_confirming];
    rewrite store_ids_get in Hget;
    destruct (last_confirming fqdn value (Records (Response resp))) as [record |].
  - split; [discriminate |]. intros (r & [= <-] & Hr). congruence.
  - split; [discriminate |]. intros (r & [=] & _).
  - split; [eauto | reflexivity].
  - exfalso. apply Hget. reflexivity.
Qed.
End HostingdeMore.

(** ** Construction and errors *)

(** X15: [NewDNSProviderConfig] of inwx succeeds exactly for a non-nil
    configuration with a non-empty user name and password, and of
    hosting.de exactly for a non-nil configuration with a non-empty API
    key and zone name; the provider holds that configuration (for
    hosting.de with an empty id map).  hosting.de reports a missing API key
    before it looks at the zone name. *)
Theorem NewDNSProviderConfig_checks :
  (forall (c : option Inwx.Config) (p : Inwx.DNSProvider),
      Inwx.NewDNSProviderConfig c = Ok p
      <-> exists config,
            c = Some config
            /\ Inwx.Username config <> EmptyString
            /\ Inwx.Password config <> EmptyString
            /\ p = {| Inwx.config := config;
                      Inwx.client :=
                        Inwx.NewClient (Inwx.Username config) (Inwx.Password config)
                          {| Inwx.opt_Sandbox := Inwx.Sandbox config |} |})
  /\ (forall (c : option Hostingde.Config) (p : Hostingde.DNSProvider),
      Hostingde.NewDNSProviderConfig c = Ok p
      <-> exists config,
            c = Some config
            /\ Hostingde.APIKey config <> EmptyString
            /\ Hostingde.ZoneName config <> EmptyString
            /\ p = {| Hostingde.config := config; Hostingde.recordIDs := ∅ |})
  /\ (forall (config : Hostingde.Config),
      Hostingde.APIKey config = EmptyString ->
      Hostingde.NewDNSProviderConfig (Some config)
        = Err (ErrorString "hostingde: API key missing")).
Proof.
  split; [| split].
  - intros [config |] p; unfold Inwx.NewDNSProviderConfig.
    + repeat case_bool_decide; cbn; split;
        try discriminate;
        try (intros (c' & [= <-] & Hu & Hp & _); congruence).
      intros [= <-]. eauto.
      intros (c' & [= <-] & _ & _ & ->). reflexivity.
    + split; [discriminate | intros (c' & [=] & _)].
  - intros [config |] p; unfold Hostingde.NewDNSProviderConfig.
    + repeat case_bool_decide; cbn; split;
        try discriminate;
        try (intros (c' & [= <-] & Hu & Hp & _); congruence).
      intros [= <-]. eauto.
      intros (c' & [= <-] & _ & _ & ->). reflexivity.
    + split; [discriminate | intros (c' & [=] & _)].
  - intros config Hk. unfold Hostingde.NewDNSProviderConfig.
    rewrite bool_decide_eq_true_2 by exact Hk. reflexivity.
Qed.

(** X3: every error that [Present] or [CleanUp] of an adapter returns
    starts with the adapter's name: it is the adapter's own error, or a
    provider's error wrapped by the adapter. *)
Theorem errors_name_the_adapter :
  (forall (W : Type) (h : forall X, Inwx.api X -> W -> X * W) (d : Inwx.Config)
          (domain token fqdn value : string) (w : W) (err : error),
      (result (run h (Inwx.Present d domain token fqdn value) w) = Some err
       \/ result (run h (Inwx.CleanUp d domain token fqdn value) w) = Some err) ->
      named "inwx: " err = true)
  /\ (forall (W : Type) (h : forall X, Netcup.api X -> W -> X * W)
             (idx : list Netcup.DNSRecord -> Netcup.DNSRecord -> Z * option error)
             (d : Netcup.Config) (domainName token fqdn value : string) (w : W)
             (err : error),
      (result (run h (Netcup.Present d domainName token fqdn value) w) = Some err
       \/ result (run h (Netcup.CleanUp idx d domainName token fqdn value) w)
          = Returned (Some err)) ->
      named "netcup: " err = true)
  /\ (forall (W : Type) (h : forall X, Hostingde.api X -> W -> X * W)
             (d : Hostingde.Config) (recordIDs : gmap string string)
             (domain token fqdn value : string) (w : W) (err : error),
      ((result (run h (Hostingde.Present d recordIDs domain token fqdn value) w)).1
         = Some err
       \/ (result (run h (Hostingde.CleanUp d recordIDs domain token fqdn value) w)).1
          = Some err) ->
      named "hostingde: " err = true)
  /\ (forall (W : Type) (m : Checkdomain.methods W)
             (domain token fqdn value : string) (d : Checkdomain.DNSProvider W)
             (err : error),
      ((Checkdomain.Present m domain token fqdn value d).1 = Some err
       \/ (Checkdomain.CleanUp m domain token fqdn value d).1 = Some err) ->
      named "checkdomain: " err = true).
Proof.
  split; [| split; [| split]].
  - intros W h d domain token fqdn value w err [H | H]; revert H.
    + unfold Inwx.Present, call.
      answer. destruct x as [authZone | e]; [| cbn; intros [= <-]; reflexivity].
      answer. destruct x as [e |]; [cbn; intros [= <-]; reflexivity |].
      rewrite inwx_defer_Logout. cbn [result].
      answer. destruct x as [recID | [code Message | msg | prefix cause]];
        [| case_bool_decide | |]; cbn; try discriminate; intros [= <-]; reflexivity.
    + unfold Inwx.CleanUp, call.
      answer. destruct x as [authZone | e]; [| cbn; intros [= <-]; reflexivity].
      answer. destruct x as [e |]; [cbn; intros [= <-]; reflexivity |].
      rewrite inwx_defer_Logout. cbn [result].
      answer. destruct x as [records | e]; [| cbn; intros [= <-]; reflexivity].
      apply inwx_delete_records_named. discriminate.
  - intros W h idx d domainName token fqdn value w err [H | H]; revert H.
    + unfold Netcup.Present, call.
      answer. destruct x as [zone | e]; [| cbn; intros [= <-]; reflexivity].
      answer. destruct x as [sessionID | e]; [| cbn; intros [= <-]; reflexivity].
      rewrite netcup_defer_Logout. cbn [result].
      answer. answer. destruct x0; cbn; [intros [= <-]; reflexivity | discriminate].
    + unfold Netcup.CleanUp, call.
      answer. destruct x as [zone | e]; [| cbn; intros [= <-]; reflexivity].
      answer. destruct x as [sessionID | e]; [| cbn; intros [= <-]; reflexivity].
      rewrite netcup_defer_Logout. cbn [result].
      answer. destruct x as [records [e |]]; cbn [fst snd];
        [cbn; intros [= <-]; reflexivity |].
      destruct (idx records _) as [i [e |]]; [cbn; intros [= <-]; reflexivity |].
      destruct (index records i) as [found |]; [| cbn; discriminate].
      answer. destruct x; cbn; [intros [= <-]; reflexivity | discriminate].
  - intros W h d recordIDs domain token fqdn value w err [H | H]; revert H.
    + unfold Hostingde.Present, call.
      answer. destruct x as [zoneConfig | e]; [| cbn; intros [= <-]; reflexivity].
      answer. destruct x as [resp | e]; [| cbn; intros [= <-]; reflexivity].
      case_bool_decide; cbn; [intros [= <-]; reflexivity | discriminate].
    + unfold Hostingde.CleanUp, call.
      answer. destruct x as [zoneConfig | e]; [| cbn; intros [= <-]; reflexivity].
      answer. destruct x as [resp | e]; cbn; [discriminate | intros [= <-]; reflexivity].
  - intros W m domain token fqdn value d err [H | H]; revert H.
    + unfold Checkdomain.Present.
      destruct (Checkdomain.getDomainIDByName m domain d) as [[domainID | e] d1];
        [| cbn; intros [= <-]; reflexivity].
      destruct (Checkdomain.checkNameservers m domainID d1) as [[e |] d2];
        [cbn; intros [= <-]; reflexivity |].
      destruct (Checkdomain.createRecord m domainID _ d2) as [[e |] d3];
        [cbn; intros [= <-]; reflexivity | discriminate].
    + unfold Checkdomain.CleanUp.
      destruct (Checkdomain.getDomainIDByName m domain d) as [[domainID | e] d1];
        [| cbn; intros [= <-]; reflexivity].
      destruct (Checkdomain.checkNameservers m domainID d1) as [[e |] d2];
        [cbn; intros [= <-]; reflexivity |].
      destruct (Checkdomain.deleteTXTRecord m domainID fqdn value d2) as [[e |] d3];
        [cbn; intros [= <-]; reflexivity | discriminate].
Qed.

(** ** Against the reference servers *)

Section RefInwxMore.
Import Inwx RefInwx.

(** The ids of [rs] are gone from the zone after a loop without failure. *)
Lemma refinwx_delete_records (rs : list NameserverRecord) (lastErr : option error)
    (s : server) :
  result (run handle (delete_records rs lastErr) s) = None ->
  authZone (final (run handle (delete_records rs lastErr) s)) = authZone s
  /\ zone (final (run handle (delete_records rs lastErr) s))
     = List.filter (fun r => negb (existsb (fun r' => bool_decide (ID r = ID r')) rs))
         (zone s).
Proof.
  revert lastErr s. induction rs as [| r0 rest IH]; intros lastErr s.
  - intros _. cbn. split; [reflexivity |]. symmetry. apply filter_all.
    apply Forall_forall. reflexivity.
  - cbn [delete_records]. unfold call. cbn [bind]. rewrite run_Vis.
    cbn [handle]. case_bool_decide as Hlocked; cbn [fst snd result final].
    + intros Hres. exfalso.
      destruct (inwx_delete_records_all handle rest
                  (Some (Errorf "inwx: " (ErrorResponse (ID r0) "Record is locked"))) s)
        as (_ & Hr & _).
      rewrite Hr in Hres. apply last_failure_None in Hres as [[=] _].
    + intros Hres. destruct (IH _ _ Hres) as [Ha Hz]. rewrite Ha, Hz.
      split; [reflexivity |]. cbn [zone set_zone]. rewrite filter_filter.
      apply List.filter_ext. intros r. cbn [existsb]. rewrite negb_orb. reflexivity.
Qed.

(** X17: against the reference server, after inwx's [CleanUp] has
    returned nil no TXT record is left under the name, and a second
    [CleanUp] with the same arguments deletes nothing, returns nil and
    leaves the zone as it is. *)
Theorem inwx_CleanUp_twice (d : Config) (domain token fqdn value : string) (s : server) :
  let o1 := run handle (CleanUp d domain token fqdn value) s in
  let o2 := run handle (CleanUp d domain token fqdn value) (final o1) in
  result o1 = None ->
  Forall (fun r => ~ (Name r = UnFqdn fqdn /\ Type_ r = "TXT")) (zone (final o1))
  /\ result o2 = None
  /\ deletions (trace o2) = []
  /\ zone (final o2) = zone (final o1).
Proof.
  intros o1 o2 Hres.
  set (rq := {| info_Domain := UnFqdn (authZone s); info_Name := UnFqdn fqdn;
                info_Type := "TXT" |}).
  assert (authZone (final o1) = authZone s
          /\ Forall (fun r => ~ (Name r = UnFqdn fqdn /\ Type_ r = "TXT")) (zone (final o1)))
    as [Ha Hgone].
  { subst o1 o2. revert Hres. unfold CleanUp, defer_Logout, call.
    cbn -[List.filter delete_records]. fold rq.
    rewrite !run_bind. cbn -[List.filter delete_records].
    intros Hres. destruct (refinwx_delete_records _ _ _ Hres) as [Ha Hz].
    split; [exact Ha |]. rewrite Hz. apply Forall_forall. intros r Hr.
    apply list_elem_of_In, filter_In in Hr as [Hin Hnot].
    intros [Hn Ht]. apply negb_true_iff in Hnot.
    assert (existsb (fun r' => bool_decide (ID r = ID r')) (List.filter (listed rq) (zone s))
            = true) as Hex; [| congruence].
    apply existsb_exists. exists r. split.
    - apply filter_In. split; [exact Hin |]. unfold listed, rq. cbn.
      rewrite !bool_decide_eq_true_2 by assumption. reflexivity.
    - apply bool_decide_eq_true_2. reflexivity. }
  split; [exact Hgone |].
  assert (List.filter (listed {| info_Domain := UnFqdn (authZone (final o1));
                                 info_Name := UnFqdn fqdn; info_Type := "TXT" |})
            (zone (final o1)) = []) as Hl.
  { apply filter_none. eapply Forall_impl; [exact Hgone |]. intros r Hr. cbn beta in Hr.
    unfold listed. cbn. repeat case_bool_decide; try reflexivity; exfalso; tauto. }
  subst o2. generalize dependent (final o1). intros s1 _ _ Hl.
  unfold CleanUp, defer_Logout, call. cbn -[List.filter]. rewrite Hl.
  cbn. auto.
Qed.
End RefInwxMore.

Section RefNetcupMore.
Import Netcup RefNetcup.

Lemma filter_unique_length (z : list DNSRecord) (found : DNSRecord) :
  NoDup (ID <$> z) -> found ∈ z ->
  S (length (List.filter (fun r => negb (bool_decide (ID r = ID found))) z)) = length z.
Proof.
  induction z as [| a z IH]; intros Hnd Hin; [inversion Hin |].
  rewrite fmap_cons in Hnd. apply NoDup_cons in Hnd as [Ha Hnd]. cbn [List.filter].
  case_bool_decide as Heq; cbn [negb].
  - rewrite filter_all; [reflexivity |].
    apply Forall_forall. intros r Hr. rewrite bool_decide_eq_false_2; [reflexivity |].
    intros Hid. apply Ha. rewrite Heq, <- Hid. apply list_elem_of_fmap_2. exact Hr.
  - apply elem_of_cons in Hin as [-> | Hin]; [congruence |].
    cbn [length]. rewrite (IH Hnd Hin). reflexivity.
Qed.

(** X18: against the reference server, with a helper that answers with
    a record of the probe's type and destination, netcup's [CleanUp]
    returning nil has removed exactly one record from the zone, the one
    with the id of the record the helper found: a TXT record with the
    challenge's value, under whatever hostname; every record with another
    id is kept. *)
Theorem netcup_CleanUp_removes_one
    (idx : list DNSRecord -> DNSRecord -> Z * option error) (d : Config)
    (domainName token fqdn value : string) (s : server) :
  finds_by_value idx ->
  wf s ->
  result (run handle (CleanUp idx d domainName token fqdn value) s) = Returned None ->
  exists i found,
    idx (zone s)
      {| ID := 0; Hostname := replace_first fqdn ("." +:+ authZone s) EmptyString;
         RecordType := "TXT"; Destination := value; DeleteRecord := false;
         rec_TTL := 0 |} = (i, None)
    /\ index (zone s) i = Some found
    /\ found ∈ zone s
    /\ RecordType found = "TXT"
    /\ Destination found = value
    /\ submissions (trace (run handle (CleanUp idx d domainName token fqdn value) s))
       = [[mark_deleted found]]
    /\ zone (final (run handle (CleanUp idx d domainName token fqdn value) s))
       = List.filter (fun r => negb (bool_decide (ID r = ID found))) (zone s)
    /\ S (length (zone (final (run handle (CleanUp idx d domainName token fqdn value) s))))
       = length (zone s).
Proof.
  intros Hidx [Hnd Hall]. unfold CleanUp, defer_Logout, call. cbn -[foldl].
  destruct (fetchError s) as [err |]; cbn -[foldl]; [discriminate |].
  destruct (idx (zone s) _) as [i [err |]] eqn:Hi; cbn -[foldl]; [discriminate |].
  destruct (Hidx _ _ _ Hi) as (found & Hfound & Ht & Hd).
  rewrite Hfound. cbn -[foldl].
  destruct (updateError s) as [err |]; cbn; [discriminate |]. intros _.
  exists i, found. repeat split; try assumption.
  - eapply index_elem_of. exact Hfound.
  - apply filter_unique_length; [exact Hnd |]. eapply index_elem_of. exact Hfound.
Qed.
End RefNetcupMore.

Section RefHostingdeMore.
Import Hostingde RefHostingde.

Lemma fresh_nonempty (n : nat) : fresh n <> EmptyString.
Proof. unfold fresh. destruct n; cbn; discriminate. Qed.

Lemma store_ids_snoc (rs : list DNSRecord) (r : DNSRecord) (fqdn value : string)
    (recordIDs : gmap string string) :
  confirms fqdn value r = true ->
  store_ids (rs ++ [r]) fqdn value recordIDs !! fqdn = Some (ID r).
Proof.
  intros Hc. revert recordIDs.
  induction rs as [| r0 rs IH]; intros recordIDs; cbn [app store_ids].
  - rewrite Hc. apply lookup_insert_eq.
  - apply IH.
Qed.

(** X19: against the reference server, which lists the zone's records
    with TXT contents in double quotes, hosting.de's [Present] returns nil
    and the map holds the id the server gave the new record. *)
Theorem hostingde_Present_stores_assigned_id (d : Config)
    (recordIDs : gmap string string) (domain token fqdn value : string) (s : server) :
  let o := run handle (Present d recordIDs domain token fqdn value) s in
  (result o).1 = None
  /\ (result o).2 !! fqdn = Some (fresh (nextID s))
  /\ records (final o) = records s ++ [store (challenge d fqdn value) (nextID s)].
Proof.
  intros o. subst o.
  assert (store_ids (records s ++ [store (challenge d fqdn value) (nextID s)])
            fqdn value recordIDs !! fqdn = Some (fresh (nextID s))) as Hs.
  { apply (store_ids_snoc (records s) (store (challenge d fqdn value) (nextID s))).
    unfold confirms, store, challenge. cbn.
    rewrite !bool_decide_eq_true_2 by reflexivity. reflexivity. }
  unfold Present, call. cbn -[store List.filter store_ids get].
  rewrite (filter_all _ (records s)) by (apply Forall_forall; reflexivity).
  fold (challenge d fqdn value).
  rewrite bool_decide_eq_false_2 by (unfold get; rewrite Hs; apply fresh_nonempty).
  cbn -[store store_ids]. auto.
Qed.
End RefHostingdeMore.

(** ** Sample runs of the further properties *)

Lemma hostingde_Present_last_confirming_witness :
  let h := RefHostingde.scripted
             {| RefHostingde.zoneAnswer := Ok Sample.hostingde_zone;
                RefHostingde.updateAnswer :=
                  Sample.hostingde_answer
                    [Sample.hostingde_record "record-1" (quoted "abc");
                     Sample.hostingde_record "record-2" (quoted "xyz");
                     Sample.hostingde_record "record-3" (quoted "abc")] |} in
  let o := run h (Hostingde.Present Sample.hostingde {[ Sample.fqdn := "record-0" ]}
                    "example.com" "token" Sample.fqdn "abc") tt in
  Hostingde.updates (trace o)
    = [Sample.hostingde_answer
         [Sample.hostingde_record "record-1" (quoted "abc");
          Sample.hostingde_record "record-2" (quoted "xyz");
          Sample.hostingde_record "record-3" (quoted "abc")]]
  /\ Hostingde.get (result o).2 Sample.fqdn = "record-3"
  /\ (result o).1 = None.
Proof.
  intros h o.
  assert (Hostingde.updates (trace o)
          = [Sample.hostingde_answer
               [Sample.hostingde_record "record-1" (quoted "abc");
                Sample.hostingde_record "record-2" (quoted "xyz");
                Sample.hostingde_record "record-3" (quoted "abc")]]) as Hu
    by reflexivity.
  destruct (hostingde_Present_last_confirming h Sample.hostingde
              {[ Sample.fqdn := "record-0" ]} "example.com" "token" Sample.fqdn "abc" tt
              {| Hostingde.Response :=
                   {| Hostingde.resp_ZoneConfig := Sample.hostingde_zone;
                      Hostingde.Records :=
                        [Sample.hostingde_record "record-1" (quoted "abc");
                         Sample.hostingde_record "record-2" (quoted "xyz");
                         Sample.hostingde_record "record-3" (quoted "abc")] |} |}
              Hu) as [Hget Hiff].
  split; [exact Hu |]. split; [exact Hget |].
  apply Hiff. vm_compute. discriminate.
Defined.

Lemma hostingde_other_names_untouched_witness :
  let h := RefHostingde.scripted
             {| RefHostingde.zoneAnswer := Ok Sample.hostingde_zone;
                RefHostingde.updateAnswer :=
                  Sample.hostingde_answer
                    [Sample.hostingde_record "record-1" (quoted "abc")] |} in
  let recordIDs : gmap string string := {[ "_acme-challenge.example.org." := "record-0" ]} in
  "_acme-challenge.example.org." <> Sample.fqdn
  /\ (result (run h (Hostingde.Present Sample.hostingde recordIDs
                       "example.com" "token" Sample.fqdn "abc") tt)).2
       !! "_acme-challenge.example.org." = Some "record-0"
  /\ (result (run h (Hostingde.CleanUp Sample.hostingde recordIDs
                       "example.com" "token" Sample.fqdn "abc") tt)).2
       !! "_acme-challenge.example.org." = Some "record-0".
Proof.
  intros h recordIDs.
  assert ("_acme-challenge.example.org." <> Sample.fqdn) as Hne by discriminate.
  destruct (hostingde_other_names_untouched h Sample.hostingde recordIDs
              "example.com" "token" Sample.fqdn "abc" "_acme-challenge.example.org." tt Hne)
    as [HP HC].
  split; [exact Hne |]. split.
  - etransitivity; [exact HP | reflexivity].
  - etransitivity; [exact HC | reflexivity].
Defined.

Lemma hostingde_CleanUp_forgets_before_update_witness :
  let h := RefHostingde.scripted
             {| RefHostingde.zoneAnswer := Ok Sample.hostingde_zone;
                RefHostingde.updateAnswer := Err Sample.timeout |} in
  let o := run h (Hostingde.CleanUp Sample.hostingde {[ Sample.fqdn := "record-7" ]}
                    "example.com" "token" Sample.fqdn "abc") tt in
  Hostingde.fetches (trace o) = [Ok Sample.hostingde_zone]
  /\ (result o).1 = Some (Errorf "hostingde: " Sample.timeout)
  /\ (result o).2 = delete Sample.fqdn {[ Sample.fqdn := "record-7" ]}
  /\ (result o).2 !! Sample.fqdn = None.
Proof.
  intros h o.
  assert (Hostingde.fetches (trace o) = [Ok Sample.hostingde_zone]) as Hf
    by reflexivity.
  destruct (hostingde_CleanUp_forgets_before_update h Sample.hostingde
              {[ Sample.fqdn := "record-7" ]} "example.com" "token" Sample.fqdn "abc" tt
              (Ok Sample.hostingde_zone) Hf) as [Hmap _].
  split; [exact Hf |]. split; [reflexivity |]. split; [exact Hmap |].
  reflexivity.
Defined.

Lemma hostingde_requests_witness :
  let h := RefHostingde.scripted
             {| RefHostingde.zoneAnswer := Ok Sample.hostingde_zone;
                RefHostingde.updateAnswer := Sample.hostingde_answer [] |} in
  let o := run h (Hostingde.CleanUp Sample.hostingde ∅
                    "example.com" "token" Sample.fqdn "abc") tt in
  exists request,
    Hostingde.submissions (trace o) = [request]
    /\ Hostingde.RecordsToAdd request = []
    /\ Hostingde.RecordsToDelete request
       = [ {| Hostingde.ID := EmptyString;
              Hostingde.Name := "_acme-challenge.example.com";
              Hostingde.Type_ := "TXT";
              Hostingde.Content := quoted "abc";
              Hostingde.rec_TTL := 0 |} ].
Proof.
  intros h o.
  exists {| Hostingde.AuthToken := "key";
            Hostingde.req_ZoneConfig := Sample.hostingde_zone;
            Hostingde.RecordsToAdd := [];
            Hostingde.RecordsToDelete := [RefHostingde.probe Sample.fqdn "abc"] |}.
  split; [reflexivity |].
  destruct (proj1 (proj2 (hostingde_requests h Sample.hostingde ∅
                            "example.com" "token" Sample.fqdn "abc" tt))
              {| Hostingde.AuthToken := "key";
                 Hostingde.req_ZoneConfig := Sample.hostingde_zone;
                 Hostingde.RecordsToAdd := [];
                 Hostingde.RecordsToDelete := [RefHostingde.probe Sample.fqdn "abc"] |})
    as (_ & _ & Hadd & Hdel).
  - vm_compute. constructor.
  - split; [exact Hadd | exact Hdel].
Defined.

Lemma hostingde_new_provider_Present_witness :
  let h := RefHostingde.scripted
             {| RefHostingde.zoneAnswer := Ok Sample.hostingde_zone;
                RefHostingde.updateAnswer := Sample.hostingde_answer [] |} in
  let p := {| Hostingde.config := Sample.hostingde; Hostingde.recordIDs := ∅ |} in
  let o := run h (Hostingde.Present (Hostingde.config p) (Hostingde.recordIDs p)
                    "example.com" "token" Sample.fqdn "abc") tt in
  Hostingde.NewDNSProviderConfig (Some Sample.hostingde) = Ok p
  /\ Hostingde.updates (trace o) = [Sample.hostingde_answer []]
  /\ (result o).1 <> None.
Proof.
  intros h p o.
  assert (Hostingde.NewDNSProviderConfig (Some Sample.hostingde) = Ok p) as Hp
    by reflexivity.
  assert (Hostingde.updates (trace o) = [Sample.hostingde_answer []]) as Hu
    by reflexivity.
  pose proof (hostingde_new_provider_Present h Sample.hostingde p
                "example.com" "token" Sample.fqdn "abc" tt
                {| Hostingde.Response :=
                     {| Hostingde.resp_ZoneConfig := Sample.hostingde_zone;
                        Hostingde.Records := [] |} |} Hp Hu) as Hiff.
  split; [exact Hp |]. split; [exact Hu |].
  intros Hnil. apply Hiff in Hnil as (record & Hlast & _). discriminate Hlast.
Defined.

Lemma NewDNSProviderConfig_checks_witness :
  let config := {| Hostingde.APIKey := EmptyString;
                   Hostingde.ZoneName := EmptyString;
                   Hostingde.TTL := 300 |} in
  Hostingde.APIKey config = EmptyString
  /\ Hostingde.NewDNSProviderConfig (Some config)
     = Err (ErrorString "hostingde: API key missing")
  /\ Inwx.NewDNSProviderConfig (Some Sample.inwx)
     = Ok {| Inwx.config := Sample.inwx;
             Inwx.client := Inwx.NewClient "user" "secret"
                              {| Inwx.opt_Sandbox := false |} |}.
Proof.
  intros config. destruct NewDNSProviderConfig_checks as (Hinwx & _ & Hkey).
  split; [reflexivity |]. split; [exact (Hkey config eq_refl) |].
  apply Hinwx. exists Sample.inwx.
  split; [reflexivity |]. split; [discriminate |]. split; [discriminate | reflexivity].
Defined.

Lemma errors_name_the_adapter_witness :
  let o := run RefInwx.handle
             (Inwx.CleanUp Sample.inwx "example.com" "token" Sample.fqdn "abc")
             (Sample.inwx_server [Sample.inwx_record 1 "abc"] 2 [1] None) in
  result o = Some (Errorf "inwx: " (ErrorResponse 1 "Record is locked"))
  /\ named "inwx: " (Errorf "inwx: " (ErrorResponse 1 "Record is locked")) = true.
Proof.
  intros o. assert (result o = Some (Errorf "inwx: " (ErrorResponse 1 "Record is locked")))
    as Hr by reflexivity.
  split; [exact Hr |].
  exact (proj1 errors_name_the_adapter _ RefInwx.handle Sample.inwx
           "example.com" "token" Sample.fqdn "abc"
           (Sample.inwx_server [Sample.inwx_record 1 "abc"] 2 [1] None) _
           (or_intror Hr)).
Defined.

Lemma inwx_CleanUp_twice_witness :
  let s := Sample.inwx_server
             [Sample.inwx_record 1 "abc"; Sample.inwx_record 2 "xyz"] 3 [] None in
  let o1 := run RefInwx.handle
              (Inwx.CleanUp Sample.inwx "example.com" "token" Sample.fqdn "abc") s in
  let o2 := run RefInwx.handle
              (Inwx.CleanUp Sample.inwx "example.com" "token" Sample.fqdn "abc")
              (final o1) in
  result o1 = None
  /\ result o2 = None
  /\ Inwx.deletions (trace o2) = []
  /\ RefInwx.zone (final o2) = RefInwx.zone (final o1).
Proof.
  intros s o1 o2. assert (result o1 = None) as Hr by reflexivity.
  destruct (inwx_CleanUp_twice Sample.inwx "example.com" "token" Sample.fqdn "abc" s Hr)
    as (_ & H2 & Hd & Hz).
  split; [exact Hr |]. split; [exact H2 |]. split; [exact Hd | exact Hz].
Defined.

Lemma netcup_CleanUp_removes_one_witness :
  let s := Sample.netcup_server
             [Sample.netcup_record 1 "xyz" 600; Sample.netcup_www 2 "abc";
              Sample.netcup_record 3 "abc" 300]
             4 None None in
  let o := run RefNetcup.handle
             (Netcup.CleanUp Netcup.GetDNSRecordIdx Sample.netcup
                "example.com" "token" Sample.fqdn "abc") s in
  finds_by_value Netcup.GetDNSRecordIdx
  /\ RefNetcup.wf s
  /\ result o = Returned None
  /\ Netcup.submissions (trace o) = [[Netcup.mark_deleted (Sample.netcup_www 2 "abc")]]
  /\ RefNetcup.zone (final o)
     = [Sample.netcup_record 1 "xyz" 600; Sample.netcup_record 3 "abc" 300]
  /\ S (length (RefNetcup.zone (final o))) = length (RefNetcup.zone s).
Proof.
  intros s o.
  assert (RefNetcup.wf s) as Hwf.
  { split; [| repeat constructor].
    apply (bool_decide_unpack _). vm_compute. exact I. }
  assert (result o = Returned None) as Hr by reflexivity.
  destruct (netcup_CleanUp_removes_one Netcup.GetDNSRecordIdx Sample.netcup
              "example.com" "token" Sample.fqdn "abc" s GetDNSRecordIdx_finds Hwf Hr)
    as (i & found & _ & _ & _ & _ & _ & _ & _ & Hlen).
  split; [exact GetDNSRecordIdx_finds |]. split; [exact Hwf |].
  split; [exact Hr |]. split; [reflexivity |]. split; [reflexivity | exact Hlen].
Defined.
